(** * uking-dmx-controller: the DMX bridge of [dmx_server.py]

    A shallow embedding of the [DMXController] class and of the request
    handlers that drive it, followed by the properties of the universe
    buffer, the ENTTEC frame, the connection procedure and the transmit loop.

    Python integers are unbounded, so channel numbers and values are [Z].
    The universe [dmx_data] is a Python list, modelled as [list Z] with
    stdpp's lookup and insert; an index outside the list raises
    [IndexError] in Python, which is written out in [list_setitem].
    Methods run in a small monad [M] that threads the controller object,
    records the calls made to the serial driver and to the thread library,
    and propagates Python exceptions. Where it matters what one thread sees
    of another's handler, the handler is also given as its steps on a shared
    memory of list objects, and the threads' steps are interleaved. *)

From Stdlib Require Import ZArith List Bool Ascii String Lia.
From stdpp Require Import base tactics option list.

Local Open Scope Z_scope.

(** ** Python values used by the controller *)

Inductive exn : Type :=
| IndexError
| ValueError
| SerialException.

Inductive outcome (A : Type) : Type :=
| Returned (a : A)
| Raised (e : exn).
Arguments Returned {A} a.
Arguments Raised {A} e.

(** [serial.Serial]: the attributes the program reads, and whether the
    handle is still open. *)
Record Serial : Type := mkSerial {
  port : string;
  baudrate : Z;
  is_open : bool
}.

(** [threading.Thread(target=self._update_loop, daemon=True)]. *)
Record Thread : Type := mkThread {
  daemon : bool
}.

(** The attributes of a [DMXController] object. *)
Record DMXController : Type := mkDMX {
  dmx_data : list Z;
  serial_port : option Serial;
  running : bool;
  update_thread : option Thread
}.

Definition with_dmx_data (d : list Z) (s : DMXController) : DMXController :=
  mkDMX d (serial_port s) (running s) (update_thread s).
Definition with_serial_port (h : option Serial) (s : DMXController) : DMXController :=
  mkDMX (dmx_data s) h (running s) (update_thread s).
Definition with_running (b : bool) (s : DMXController) : DMXController :=
  mkDMX (dmx_data s) (serial_port s) b (update_thread s).
Definition with_update_thread (t : option Thread) (s : DMXController) : DMXController :=
  mkDMX (dmx_data s) (serial_port s) (running s) t.

(** Calls that leave the process: those the methods make in their text, to
    the serial driver and to the thread library. What the runtime does on its
    own, such as a finalizer closing a handle that is no longer referenced,
    is not recorded. *)
Inductive effect : Type :=
| SerialOpen (device : string) (baud : Z) (ok : bool)
| SerialWrite (device : string) (frame : list Z) (ok : bool)
| SerialClose (device : string)
| ThreadStart
| ThreadJoin.

(** ** The monad of methods *)

Definition M (A : Type) : Type :=
  DMXController -> outcome A * DMXController * list effect.

Definition ret {A} (a : A) : M A := fun s => (Returned a, s, []).

Definition bind {A B} (m : M A) (k : A -> M B) : M B := fun s =>
  match m s with
  | (Returned a, s1, t1) =>
      match k a s1 with (r, s2, t2) => (r, s2, t1 ++ t2) end
  | (Raised e, s1, t1) => (Raised e, s1, t1)
  end.

(** [try: m  except Exception as e: h e]. *)
Definition try_except {A} (m : M A) (h : exn -> M A) : M A := fun s =>
  match m s with
  | (Returned a, s1, t1) => (Returned a, s1, t1)
  | (Raised e, s1, t1) =>
      match h e s1 with (r, s2, t2) => (r, s2, t1 ++ t2) end
  end.

Definition raise {A} (e : exn) : M A := fun s => (Raised e, s, []).
Definition get : M DMXController := fun s => (Returned s, s, []).
Definition modify (f : DMXController -> DMXController) : M unit :=
  fun s => (Returned tt, f s, []).
Definition emit (e : effect) : M unit := fun s => (Returned tt, s, [e]).

Declare Scope py_scope.
Delimit Scope py_scope with py.
Notation "x <- m ;; k" := (bind m (fun x => k))
  (at level 100, m at next level, right associativity) : py_scope.
Notation "m ;; k" := (bind m (fun _ => k))
  (at level 100, right associativity) : py_scope.
Local Open Scope py_scope.

Definition final_state {A} (r : outcome A * DMXController * list effect) : DMXController :=
  snd (fst r).
Definition result {A} (r : outcome A * DMXController * list effect) : outcome A :=
  fst (fst r).
Definition trace {A} (r : outcome A * DMXController * list effect) : list effect :=
  snd r.
Arguments final_state {A} !r /.
Arguments result {A} !r /.
Arguments trace {A} !r /.

(** ** Universe store *)

(** [l[i] = x] on a Python list: negative indices count from the end, and an
    index outside [-len, len) raises [IndexError]. *)
Definition list_setitem (l : list Z) (i : Z) (x : Z) : option (list Z) :=
  let n := Z.of_nat (length l) in
  if (0 <=? i) && (i <? n) then Some (<[Z.to_nat i := x]> l)
  else if (- n <=? i) && (i <? 0) then Some (<[Z.to_nat (n + i) := x]> l)
  else None.

Definition set_channel (channel value : Z) : M unit :=
  if (1 <=? channel) && (channel <=? 512) then
    s <- get ;;
    match list_setitem (dmx_data s) (channel - 1) (Z.max 0 (Z.min 255 value)) with
    | Some d => modify (with_dmx_data d)
    | None => raise IndexError
    end
  else ret tt.

(** [for i, value in enumerate(values): self.set_channel(start_channel + i, value)] *)
Fixpoint set_channels_from (i : Z) (start_channel : Z) (values : list Z) : M unit :=
  match values with
  | [] => ret tt
  | value :: rest =>
      set_channel (start_channel + i) value ;;
      set_channels_from (i + 1) start_channel rest
  end.

Definition set_channels (start_channel : Z) (values : list Z) : M unit :=
  set_channels_from 0 start_channel values.

(** Reading channel [c] back is [dmx_data[c - 1]]. *)
Definition read_channel (c : Z) (s : DMXController) : option Z :=
  dmx_data s !! Z.to_nat (c - 1).

(** [clamp(v, lo, hi)] as the specification words it. *)
Definition clamp (v lo hi : Z) : Z :=
  if v <? lo then lo else if hi <? v then hi else v.

(** ** Packet encoder *)

(** [bytearray(l)] accepts only integers in [range(256)]. *)
Definition is_byte (v : Z) : bool := (0 <=? v) && (v <? 256).

Definition bytearray (l : list Z) : option (list Z) :=
  if forallb is_byte l then Some l else None.

(** The body of the [try] block of [send_dmx_packet] up to the write:
    [None] is the [ValueError] of [bytearray]. *)
Definition build_packet (data : list Z) : option (list Z) :=
  let packet := [0x7E; 0x06] in
  match bytearray (0x00 :: data) with
  | None => None
  | Some dmx_packet =>
      let length := Z.of_nat (length dmx_packet) in
      let packet := packet ++ [Z.land length 0xFF] in
      let packet := packet ++ [Z.land (Z.shiftr length 8) 0xFF] in
      let packet := packet ++ dmx_packet in
      Some (packet ++ [0xE7])
  end.

(** [self.serial_port.write(packet)]; the driver decides whether the write
    succeeds ([ok]) or raises. *)
Definition serial_write (h : Serial) (packet : list Z) (ok : bool) : M unit :=
  emit (SerialWrite (port h) packet ok) ;;
  if ok then ret tt else raise SerialException.

Definition send_dmx_packet (ok : bool) : M bool :=
  s <- get ;;
  match serial_port s with
  | None => ret false
  | Some h =>
      try_except
        (match build_packet (dmx_data s) with
         | None => raise ValueError
         | Some packet => serial_write h packet ok ;; ret true
         end)
        (fun _ => ret false)
  end.

(** ** Transmit scheduler: start and stop *)

Definition start_updates : M unit :=
  s <- get ;;
  if running s then ret tt
  else
    (modify (with_running true) ;;
     modify (with_update_thread (Some (mkThread true))) ;;
     emit ThreadStart).

Definition close (h : Serial) : Serial := mkSerial (port h) (baudrate h) false.

Definition stop : M unit :=
  modify (with_running false) ;;
  s <- get ;;
  (match update_thread s with
   | Some _ => emit ThreadJoin
   | None => ret tt
   end) ;;
  match serial_port s with
  | Some h => emit (SerialClose (port h)) ;; modify (with_serial_port (Some (close h)))
  | None => ret tt
  end.

(** ** Transport: connect and discovery *)

(** [serial.tools.list_ports] entries. *)
Record ListPortInfo : Type := mkPort {
  device : string;
  description : string
}.

(** What the program gets from outside: the enumerated ports, whether
    opening a device succeeds, and Python's [str.lower], which lower-cases by
    the Unicode tables and is taken as given. *)
Record Env : Type := mkEnv {
  comports : list ListPortInfo;
  can_open : string -> bool;
  str_lower : string -> string
}.

(** [serial.Serial(port=port, baudrate=baudrate, ...)]: a handle, or an
    exception. *)
Definition serial_Serial (env : Env) (p : string) (baud : Z) : M Serial :=
  emit (SerialOpen p baud (can_open env p)) ;;
  if can_open env p then ret (mkSerial p baud true) else raise SerialException.

Definition connect (env : Env) (p : string) (baud : Z) : M bool :=
  try_except
    (h <- serial_Serial env p baud ;;
     modify (with_serial_port (Some h)) ;;
     start_updates ;;
     ret true)
    (fun _ => ret false).

(** [str.lower] on ASCII text, where it lowers exactly the letters A to Z;
    the concrete environments below, whose descriptions are ASCII, use it. *)
Definition lower_ascii (c : ascii) : ascii :=
  let n := nat_of_ascii c in
  if ((65 <=? n) && (n <=? 90))%nat then ascii_of_nat (n + 32) else c.

Fixpoint lower (s : string) : string :=
  match s with
  | EmptyString => EmptyString
  | String c s' => String (lower_ascii c) (lower s')
  end.

(** [keyword in s] *)
Fixpoint contains (keyword s : string) : bool :=
  String.prefix keyword s ||
  match s with
  | EmptyString => false
  | String _ s' => contains keyword s'
  end.

Definition keywords : list string :=
  ["dmx"; "enttec"; "ftdi"; "dmxking"; "usb serial"]%string.

(** [any(keyword in port.description.lower() for keyword in [...])] *)
Definition matches_keyword (lower : string -> string) (descr : string) : bool :=
  existsb (fun keyword => contains keyword (lower descr)) keywords.

(** The [for port in ports] loop of [auto_connect]: [return True] follows the
    call of [connect] inside the [try]; the handler moves on to the next port. *)
Fixpoint auto_connect_ports (env : Env) (baud : Z) (ports : list ListPortInfo) : M bool :=
  match ports with
  | [] => ret false
  | p :: rest =>
      if matches_keyword (str_lower env) (description p) then
        try_except
          (connect env (device p) baud ;; ret true)
          (fun _ => auto_connect_ports env baud rest)
      else auto_connect_ports env baud rest
  end.

Definition auto_connect (env : Env) (baud : Z) : M bool :=
  auto_connect_ports env baud (comports env).

(** [DMXController.__init__(port, baudrate)]; [if port:] holds for a
    non-empty string. *)
Definition fresh : DMXController := mkDMX (replicate 512 0) None false None.

Definition init (env : Env) (p : option string) (baud : Z)
  : outcome bool * DMXController * list effect :=
  match p with
  | Some (String c p') => connect env (String c p') baud fresh
  | _ => auto_connect env baud fresh
  end.

(** The global instance [dmx = DMXController()]. *)
Definition dmx (env : Env) : DMXController := final_state (init env None 250000).

(** ** Request handlers *)

(** The JSON body of [POST /dmx]: both keys are optional. *)
Record UpdateRequest : Type := mkUpdateRequest {
  startAddress : option Z;
  channels : option (list Z)
}.

Record UpdateResponse : Type := mkUpdateResponse {
  status : string;
  address : Z;
  channels_updated : Z
}.

Definition update_dmx (data : UpdateRequest) : M UpdateResponse :=
  let start_address := default 1 (startAddress data) in
  let channels := default [] (channels data) in
  set_channels start_address channels ;;
  ret (mkUpdateResponse "ok" start_address (Z.of_nat (length channels))).

Record StatusResponse : Type := mkStatusResponse {
  st_connected : bool;
  st_port : option string;
  st_running : bool
}.

Definition get_status : M StatusResponse :=
  s <- get ;;
  ret (mkStatusResponse
         (match serial_port s with Some _ => true | None => false end)
         (match serial_port s with Some h => Some (port h) | None => None end)
         (running s)).

(** ** Shared memory, one step at a time

    The request threads and the transmit loop share the controller object
    without a lock. To tell what one thread can see of another's handler, a
    handler is also written as the steps it takes on the shared memory: a
    list expression builds an object that only its thread knows, an
    assignment to the attribute rebinds it in one step, an item assignment
    loads the attribute and then stores into the object it got, and the read
    of the universe by [[0x00] + self.dmx_data] loads the attribute and then
    copies the items of that object. The copy is taken item by item, which
    allows every interleaving, also those a runtime with a global lock
    excludes. *)

(** The list objects by address, and the object [dmx.dmx_data] is bound to. *)
Record Shared : Type := mkShared {
  objects : list (list Z);
  dmx_ref : nat
}.

(** What a thread keeps to itself: the reference it holds and the items it
    has copied so far. *)
Record Local : Type := mkLocal {
  reg : nat;
  acc : list Z
}.

Inductive instr : Type :=
| NewList (l : list Z)
| StoreAttr
| LoadAttr
| StoreItem (i : nat) (v : Z)
| ReadItem (i : nat).

Definition step (i : instr) (sh : Shared) (lo : Local) : Shared * Local :=
  match i with
  | NewList l =>
      (mkShared (objects sh ++ [l]) (dmx_ref sh), mkLocal (length (objects sh)) (acc lo))
  | StoreAttr => (mkShared (objects sh) (reg lo), lo)
  | LoadAttr => (sh, mkLocal (dmx_ref sh) (acc lo))
  | StoreItem k v =>
      (mkShared (alter (fun l => <[k := v]> l) (reg lo) (objects sh)) (dmx_ref sh), lo)
  | ReadItem k =>
      (sh, mkLocal (reg lo)
             (acc lo ++ match objects sh !! reg lo with
                        | Some l => match l !! k with Some v => [v] | None => [] end
                        | None => []
                        end))
  end.

Fixpoint run_steps (p : list instr) (sh : Shared) (lo : Local) : Shared * Local :=
  match p with
  | [] => (sh, lo)
  | i :: rest => match step i sh lo with (sh1, lo1) => run_steps rest sh1 lo1 end
  end.

(** The universe: the object the attribute is bound to. *)
Definition universe (sh : Shared) : list Z := default [] (objects sh !! dmx_ref sh).

(** A controller's universe as the only object, and a thread that holds
    nothing yet. *)
Definition share (d : list Z) : Shared := mkShared [d] 0.
Definition idle : Local := mkLocal 0 [].

(** A handler whose steps run with no other thread in between. *)
Definition alone (p : list instr) : M unit :=
  modify (fun s => with_dmx_data (universe (fst (run_steps p (share (dmx_data s)) idle))) s).

(** Two threads: [false] tags the steps of the first, [true] of the second. *)
Fixpoint exec (m : list (bool * instr)) (sh : Shared) (w r : Local)
  : Shared * Local * Local :=
  match m with
  | [] => (sh, w, r)
  | (false, i) :: rest => match step i sh w with (sh1, w1) => exec rest sh1 w1 r end
  | (true, i) :: rest => match step i sh r with (sh1, r1) => exec rest sh1 w r1 end
  end.

(** The ways a scheduler can merge the steps of two threads. *)
Inductive interleaving : list instr -> list instr -> list (bool * instr) -> Prop :=
| il_nil : interleaving [] [] []
| il_first (a : instr) (p q : list instr) (m : list (bool * instr)) :
    interleaving p q m -> interleaving (a :: p) q ((false, a) :: m)
| il_second (b : instr) (p q : list instr) (m : list (bool * instr)) :
    interleaving p q m -> interleaving p (b :: q) ((true, b) :: m).

(** [dmx.dmx_data = [0] * 512] *)
Definition blackout_steps : list instr := [NewList (replicate 512 0); StoreAttr].

(** [self.dmx_data[channel - 1] = max(0, min(255, value))], when the channel
    is in range. *)
Definition set_channel_steps (channel value : Z) : list instr :=
  if (1 <=? channel) && (channel <=? 512) then
    [LoadAttr; StoreItem (Z.to_nat (channel - 1)) (Z.max 0 (Z.min 255 value))]
  else [].

Fixpoint set_channels_steps_from (i : Z) (start_channel : Z) (values : list Z)
  : list instr :=
  match values with
  | [] => []
  | value :: rest =>
      set_channel_steps (start_channel + i) value
      ++ set_channels_steps_from (i + 1) start_channel rest
  end.

Definition set_channels_steps (start_channel : Z) (values : list Z) : list instr :=
  set_channels_steps_from 0 start_channel values.

(** The read of [self.dmx_data] in [send_dmx_packet], for the 512 items of
    the universe. *)
Definition snapshot_steps : list instr := LoadAttr :: map ReadItem (seq 0 512).

Definition blackout : M string :=
  alone blackout_steps ;;
  ret "blackout"%string.

(** ** The transmit loop among the other threads *)

(** What the request threads and the owner of the controller may call. *)
Inductive call : Type :=
| CallSetChannel (channel value : Z)
| CallSetChannels (start_channel : Z) (values : list Z)
| CallBlackout
| CallConnect (p : string) (baud : Z)
| CallAutoConnect (baud : Z)
| CallSend (ok : bool)
| CallStartUpdates
| CallStop
| CallUpdate (data : UpdateRequest)
| CallStatus.

Definition discard {A} (m : M A) : M unit := m ;; ret tt.

Definition run_call (env : Env) (c : call) : M unit :=
  match c with
  | CallSetChannel channel value => set_channel channel value
  | CallSetChannels start_channel values => set_channels start_channel values
  | CallBlackout => discard blackout
  | CallConnect p baud => discard (connect env p baud)
  | CallAutoConnect baud => discard (auto_connect env baud)
  | CallSend ok => discard (send_dmx_packet ok)
  | CallStartUpdates => start_updates
  | CallStop => stop
  | CallUpdate data => discard (update_dmx data)
  | CallStatus => discard get_status
  end.

(** A call made by another thread: its exception, if any, ends that thread's
    request and is not seen by the loop. *)
Definition elsewhere (m : M unit) : M unit := try_except m (fun _ => ret tt).

Fixpoint run_calls (env : Env) (cs : list call) : M unit :=
  match cs with
  | [] => ret tt
  | c :: rest => elsewhere (run_call env c) ;; run_calls env rest
  end.

(** [while self.running: self.send_dmx_packet(); time.sleep(1.0 / 44.0)].
    The schedule lists, for each iteration, the outcome the driver gives to
    the write and the calls the other threads make while the loop sleeps; the
    loop is followed for as long as the schedule tells. *)
Fixpoint _update_loop (env : Env) (schedule : list (bool * list call)) : M unit :=
  match schedule with
  | [] => ret tt
  | (ok, others) :: rest =>
      s <- get ;;
      if running s then
        (send_dmx_packet ok ;;
         run_calls env others ;;
         _update_loop env rest)
      else ret tt
  end.

(** ** Definitions used by the statements *)

(** The universe invariant of the data model. *)
Definition universe_inv (d : list Z) : Prop :=
  length d = 512%nat /\ Forall (fun v => 0 <= v <= 255) d.

(** What one call of [set_channel] does to a universe of 512 slots. *)
Definition store (c v : Z) (d : list Z) : list Z :=
  if (1 <=? c) && (c <=? 512) then <[Z.to_nat (c - 1) := clamp v 0 255]> d else d.

Fixpoint store_all (c : Z) (vs : list Z) (d : list Z) : list Z :=
  match vs with
  | [] => d
  | v :: rest => store_all (c + 1) rest (store c v d)
  end.

(** The specification's wording of [set_channels]: apply
    [set_channel(start+i, values[i])] for each index [i], in order. *)
Definition apply_each (start : Z) (values : list Z) : M unit :=
  foldr (fun i rest => set_channel (start + Z.of_nat i) (nth i values 0) ;; rest)
        (ret tt) (seq 0 (length values)).

(** The controllers the program can be in: the constructed one, then any
    sequence of calls. *)
Inductive reachable (env : Env) : DMXController -> Prop :=
| reach_init (p : option string) (baud : Z) :
    reachable env (final_state (init env p baud))
| reach_call (c : call) (s : DMXController) :
    reachable env s -> reachable env (final_state (run_call env c s)).

(** Two adapters are plugged in; the first one cannot be opened (busy, or no
    permission), the second one can. *)
Definition first_adapter_busy : Env :=
  mkEnv [mkPort "/dev/ttyUSB0" "USB Serial Port";
         mkPort "/dev/ttyUSB1" "ENTTEC DMX USB PRO"]
        (fun d => String.eqb d "/dev/ttyUSB1")
        lower.

(** A controller whose channels are all at 7, and the schedule in which a
    reader takes the whole universe between the two steps of the blackout. *)
Definition all_sevens : DMXController := with_dmx_data (replicate 512 7) fresh.

Definition reader_inside : list (bool * instr) :=
  map (pair false) [NewList (replicate 512 0)]
  ++ map (pair true) snapshot_steps
  ++ map (pair false) [StoreAttr].

(** A controller connected to an adapter, with its loop running. *)
Definition connected_running : DMXController :=
  with_running true
    (with_serial_port (Some (mkSerial "/dev/ttyUSB0" 250000 true)) fresh).

(** Where the blackout handler and a reader of the universe stand, each in
    its own steps, with [old] the universe before the blackout. *)
Definition writer_phase (old : list Z) (p : list instr) (sh : Shared) (w : Local) : Prop :=
  (p = blackout_steps /\ objects sh !! dmx_ref sh = Some old)
  \/ (p = [StoreAttr] /\ objects sh !! dmx_ref sh = Some old
      /\ objects sh !! reg w = Some (replicate 512 0))
  \/ (p = [] /\ objects sh !! dmx_ref sh = Some (replicate 512 0)).

Definition reader_phase (old : list Z) (q : list instr) (sh : Shared) (r : Local) : Prop :=
  (q = snapshot_steps /\ acc r = [])
  \/ (exists k obj,
        (k <= 512)%nat /\ q = map ReadItem (seq k (512 - k))
        /\ objects sh !! reg r = Some obj
        /\ (obj = old \/ obj = replicate 512 0)
        /\ acc r = take k obj).

(** The calls after which a stopped controller may be running again. *)
Definition restarts (c : call) : bool :=
  match c with
  | CallConnect _ _ | CallAutoConnect _ | CallStartUpdates => true
  | _ => false
  end.

(** Effects on the serial line, and starts of a transmit thread. *)
Definition is_serial_effect (e : effect) : bool :=
  match e with
  | SerialOpen _ _ _ | SerialWrite _ _ _ | SerialClose _ => true
  | ThreadStart | ThreadJoin => false
  end.

Definition is_thread_start (e : effect) : bool :=
  match e with
  | ThreadStart => true
  | _ => false
  end.

Definition is_serial_open (e : effect) : bool :=
  match e with
  | SerialOpen _ _ _ => true
  | _ => false
  end.

(** The calls that may open a serial port. *)
Definition connects (c : call) : bool :=
  match c with
  | CallConnect _ _ | CallAutoConnect _ => true
  | _ => false
  end.

(** The lifecycle invariant of the connection state: a running controller
    holds a serial handle and a thread. *)
Definition lifecycle_inv (s : DMXController) : Prop :=
  running s = true -> serial_port s <> None /\ update_thread s <> None.

Ltac run_simpl := unfold result, final_state, trace in *; simpl in *.

(** [[0] * 512] stays folded under [simpl]. *)
#[local] Arguments replicate : simpl never.

(** * Properties *)

(** ** Helper lemmas on the monad and the record *)

Lemma with_dmx_data_same (s : DMXController) : with_dmx_data (dmx_data s) s = s.
Proof. by destruct s. Qed.

Lemma bind_returned {A B} (m : M A) (k : A -> M B) s a s1 t1 :
  m s = (Returned a, s1, t1) ->
  bind m k s = (result (k a s1), final_state (k a s1), t1 ++ trace (k a s1)).
Proof.
  intros Hm. unfold bind. rewrite Hm.
  by destruct (k a s1) as [[r s2] t2].
Qed.

(** ** Universe store *)

Lemma zeros_universe : universe_inv (replicate 512 0).
Proof. split; [reflexivity | apply Forall_replicate; lia]. Qed.

Lemma blackout_run (s : DMXController) :
  blackout s = (Returned "blackout"%string, with_dmx_data (replicate 512 0) s, []).
Proof. reflexivity. Qed.

Lemma max_min_clamp (v : Z) : Z.max 0 (Z.min 255 v) = clamp v 0 255.
Proof.
  unfold clamp.
  destruct (Z.ltb_spec v 0); [lia|]. destruct (Z.ltb_spec 255 v); lia.
Qed.

Lemma clamp_range (v : Z) : 0 <= clamp v 0 255 <= 255.
Proof. rewrite <- max_min_clamp. lia. Qed.

Lemma length_store c v d : length (store c v d) = length d.
Proof. unfold store. case_match; [apply length_insert | done]. Qed.

Lemma length_store_all vs : forall c d, length (store_all c vs d) = length d.
Proof.
  induction vs as [|v vs IH]; intros c d; simpl; [done|].
  by rewrite IH, length_store.
Qed.

Lemma Forall_store c v d :
  Forall (fun x => 0 <= x <= 255) d -> Forall (fun x => 0 <= x <= 255) (store c v d).
Proof.
  intros Hd. unfold store. case_match; [|done].
  apply Forall_insert; [done | apply clamp_range].
Qed.

Lemma Forall_store_all vs : forall c d,
  Forall (fun x => 0 <= x <= 255) d -> Forall (fun x => 0 <= x <= 255) (store_all c vs d).
Proof.
  induction vs as [|v vs IH]; intros c d Hd; simpl; [done|].
  by apply IH, Forall_store.
Qed.

Lemma set_channel_run (c v : Z) (s : DMXController) :
  length (dmx_data s) = 512%nat ->
  set_channel c v s = (Returned tt, with_dmx_data (store c v (dmx_data s)) s, []).
Proof.
  intros Hlen. unfold set_channel, store.
  destruct ((1 <=? c) && (c <=? 512)) eqn:Hc.
  - apply andb_prop in Hc as [H1 H2].
    apply Z.leb_le in H1. apply Z.leb_le in H2.
    unfold bind, get, list_setitem. rewrite Hlen.
    assert (H3 : (0 <=? c - 1) && (c - 1 <? Z.of_nat 512) = true).
    { apply andb_true_intro. split; [apply Z.leb_le | apply Z.ltb_lt]; lia. }
    rewrite H3. unfold modify. simpl. by rewrite max_min_clamp.
  - unfold ret. by rewrite with_dmx_data_same.
Qed.

Lemma set_channel_out_of_range (c v : Z) (s : DMXController) :
  ~ (1 <= c <= 512) -> set_channel c v s = (Returned tt, s, []).
Proof.
  intros Hc. unfold set_channel.
  destruct ((1 <=? c) && (c <=? 512)) eqn:E; [|done].
  apply andb_prop in E as [H1 H2].
  apply Z.leb_le in H1. apply Z.leb_le in H2. lia.
Qed.

Lemma set_channels_from_run (start : Z) (vs : list Z) : forall (i : Z) (s : DMXController),
  length (dmx_data s) = 512%nat ->
  set_channels_from i start vs s
  = (Returned tt, with_dmx_data (store_all (start + i) vs (dmx_data s)) s, []).
Proof.
  induction vs as [|v vs IH]; intros i s Hlen; simpl.
  - unfold ret. by rewrite with_dmx_data_same.
  - rewrite (bind_returned _ _ _ _ _ _ (set_channel_run (start + i) v s Hlen)).
    rewrite IH by (simpl; by rewrite length_store).
    simpl. by replace (start + (i + 1)) with (start + i + 1) by lia.
Qed.

(** Slot [k] after writing [vs] from channel [c] on. *)
Lemma lookup_store (c v : Z) (d : list Z) (k : nat) :
  store c v d !! k =
  if decide (1 <= c <= 512 /\ Z.of_nat k = c - 1 /\ (k < length d)%nat)
  then Some (clamp v 0 255) else d !! k.
Proof.
  unfold store. destruct ((1 <=? c) && (c <=? 512)) eqn:Hc.
  - apply andb_prop in Hc as [H1 H2].
    apply Z.leb_le in H1. apply Z.leb_le in H2.
    case_decide as Hk.
    + destruct Hk as (_ & Hk & Hlt).
      replace (Z.to_nat (c - 1)) with k by lia.
      by apply list_lookup_insert_eq.
    + destruct (decide (Z.to_nat (c - 1) = k)) as [Heq|Hne].
      * rewrite list_insert_ge; [done|]. lia.
      * by apply list_lookup_insert_ne.
  - case_decide as Hk; [|done].
    apply andb_false_iff in Hc. destruct Hc as [Hc|Hc];
      [apply Z.leb_gt in Hc | apply Z.leb_gt in Hc]; lia.
Qed.

Lemma lookup_store_all (vs : list Z) : forall (c : Z) (d : list Z) (k : nat),
  length d = 512%nat ->
  store_all c vs d !! k =
  if decide ((k < 512)%nat /\ c <= Z.of_nat k + 1 < c + Z.of_nat (length vs))
  then (fun v => clamp v 0 255) <$> (vs !! Z.to_nat (Z.of_nat k + 1 - c))
  else d !! k.
Proof.
  induction vs as [|v vs IH]; intros c d k Hlen; simpl.
  - case_decide; [lia | done].
  - rewrite IH by (by rewrite length_store).
    rewrite lookup_store, Hlen.
    repeat case_decide; try lia.
    + f_equal. replace (Z.to_nat (Z.of_nat k + 1 - c)) with (S (Z.to_nat (Z.of_nat k + 1 - (c + 1)))) by lia.
      done.
    + replace (Z.to_nat (Z.of_nat k + 1 - c)) with 0%nat by lia. done.
    + done.
Qed.

Lemma bind_ext {A B} (m : M A) (k k' : A -> M B) (s : DMXController) :
  (forall a s1, k a s1 = k' a s1) -> bind m k s = bind m k' s.
Proof.
  intros Hk. unfold bind.
  destruct (m s) as [[[a|e] s1] t1]; [by rewrite Hk | done].
Qed.

Lemma set_channels_from_apply (start : Z) (vs : list Z) :
  forall (pre : list Z) (s : DMXController),
  set_channels_from (Z.of_nat (length pre)) start vs s
  = foldr (fun i rest => set_channel (start + Z.of_nat i) (nth i (pre ++ vs) 0) ;; rest)
          (ret tt) (seq (length pre) (length vs)) s.
Proof.
  induction vs as [|v vs IH]; intros pre s; simpl; [done|].
  rewrite nth_middle.
  apply bind_ext. intros _ s1.
  specialize (IH (pre ++ [v]) s1).
  rewrite length_app in IH. simpl in IH.
  replace (Z.of_nat (length pre + 1)) with (Z.of_nat (length pre) + 1) in IH by lia.
  rewrite IH, <- app_assoc. simpl.
  by replace (length pre + 1)%nat with (S (length pre)) by lia.
Qed.

(** ** Packet encoder *)

Lemma bytearray_bytes (l : list Z) :
  Forall (fun v => 0 <= v <= 255) l -> bytearray l = Some l.
Proof.
  intros Hl. unfold bytearray.
  replace (forallb is_byte l) with true; [done|].
  symmetry. apply forallb_forall. intros v Hv.
  rewrite Forall_forall in Hl. apply list_elem_of_In, Hl in Hv.
  unfold is_byte. apply andb_true_intro.
  split; [apply Z.leb_le | apply Z.ltb_lt]; lia.
Qed.

Lemma build_packet_frame (u : list Z) :
  universe_inv u ->
  build_packet u = Some ([0x7E; 0x06; 0x01; 0x02; 0x00] ++ u ++ [0xE7]).
Proof.
  intros [Hlen Hu]. unfold build_packet.
  rewrite bytearray_bytes by (constructor; [lia | done]).
  simpl length. rewrite Hlen. reflexivity.
Qed.

Lemma send_dmx_packet_connected (ok : bool) (s : DMXController) (h : Serial) :
  universe_inv (dmx_data s) -> serial_port s = Some h ->
  send_dmx_packet ok s
  = (Returned ok, s,
     [SerialWrite (port h) ([0x7E; 0x06; 0x01; 0x02; 0x00] ++ dmx_data s ++ [0xE7]) ok]).
Proof.
  intros Hinv Hh. unfold send_dmx_packet, bind, get. rewrite Hh.
  unfold try_except. rewrite (build_packet_frame _ Hinv).
  by destruct ok.
Qed.

(** C1. For every universe of 512 values in [0,255] the frame is
    7E 06 01 02, the start code 00, the 512 channel values in order and E7,
    518 bytes in all; this is the byte sequence handed to the serial write;
    and the universe with channel 1 = 255 and channel 512 = 10 gives
    7E 06 01 02 00 FF, 510 zero bytes, 0A E7. *)
Theorem frame_exact (u : list Z) :
  length u = 512%nat ->
  Forall (fun v => 0 <= v <= 255) u ->
  build_packet u = Some ([0x7E; 0x06; 0x01; 0x02] ++ [0x00] ++ u ++ [0xE7])
  /\ (forall f, build_packet u = Some f -> length f = 518%nat)
  /\ (forall s h ok, dmx_data s = u -> serial_port s = Some h ->
        trace (send_dmx_packet ok s)
        = [SerialWrite (port h) ([0x7E; 0x06; 0x01; 0x02] ++ [0x00] ++ u ++ [0xE7]) ok])
  /\ build_packet ([255] ++ replicate 510 0 ++ [10])
     = Some ([0x7E; 0x06; 0x01; 0x02; 0x00; 0xFF] ++ replicate 510 0 ++ [0x0A; 0xE7]).
Proof.
  intros Hlen Hu.
  assert (Hinv : universe_inv u) by done.
  pose proof (build_packet_frame u Hinv) as Hf.
  split; [exact Hf|]. split; [|split].
  - intros f Hf'. rewrite Hf in Hf'. injection Hf' as <-.
    simpl. rewrite length_app, Hlen. reflexivity.
  - intros s h ok <- Hh. by rewrite (send_dmx_packet_connected ok s h Hinv Hh).
  - vm_compute. reflexivity.
Qed.

Lemma frame_exact_witness :
  length (dmx_data fresh) = 512%nat
  /\ Forall (fun v => 0 <= v <= 255) (dmx_data fresh)
  /\ build_packet (dmx_data fresh)
     = Some ([0x7E; 0x06; 0x01; 0x02] ++ [0x00] ++ dmx_data fresh ++ [0xE7]).
Proof.
  assert (H1 : length (dmx_data fresh) = 512%nat) by reflexivity.
  assert (H2 : Forall (fun v => 0 <= v <= 255) (dmx_data fresh)).
  { apply Forall_replicate. lia. }
  split; [exact H1|]. split; [exact H2|].
  exact (proj1 (frame_exact (dmx_data fresh) H1 H2)).
Defined.

(** ** Universe store: the claims *)

(** C2. On a universe of 512 slots, [set_channel(c, v)] with [c] in [1,512]
    returns normally, stores [clamp(v, 0, 255)] at index [c - 1] and nowhere
    else, so that reading channel [c] back gives [clamp(v, 0, 255)]; with [c]
    outside [1,512] it returns normally and leaves the whole controller as
    it was. *)
Theorem set_channel_spec (s : DMXController) (c v : Z) :
  (length (dmx_data s) = 512%nat -> 1 <= c <= 512 ->
     set_channel c v s
     = (Returned tt, with_dmx_data (<[Z.to_nat (c - 1) := clamp v 0 255]> (dmx_data s)) s, [])
     /\ read_channel c (final_state (set_channel c v s)) = Some (clamp v 0 255)
     /\ (forall c', 1 <= c' <= 512 -> c' <> c ->
           read_channel c' (final_state (set_channel c v s)) = read_channel c' s))
  /\ (~ (1 <= c <= 512) -> set_channel c v s = (Returned tt, s, [])).
Proof.
  split.
  - intros Hlen Hc. rewrite (set_channel_run c v s Hlen). unfold store.
    replace ((1 <=? c) && (c <=? 512)) with true.
    2:{ symmetry. apply andb_true_intro. split; apply Z.leb_le; lia. }
    split; [done|]. unfold read_channel. simpl. split.
    + apply list_lookup_insert_eq. lia.
    + intros c' Hc' Hne. apply list_lookup_insert_ne. lia.
  - apply set_channel_out_of_range.
Qed.

Lemma set_channel_spec_witness :
  length (dmx_data fresh) = 512%nat
  /\ read_channel 7 (final_state (set_channel 7 300 fresh)) = Some 255
  /\ set_channel 513 300 fresh = (Returned tt, fresh, []).
Proof.
  split; [reflexivity|]. split.
  - apply (proj1 (set_channel_spec fresh 7 300) eq_refl). lia.
  - apply (proj2 (set_channel_spec fresh 513 300)). lia.
Defined.

Lemma store_all_app (vs tail : list Z) : forall (c : Z) (d : list Z),
  512 < c + Z.of_nat (length vs) ->
  store_all c (vs ++ tail) d = store_all c vs d.
Proof.
  induction vs as [|v vs IH]; intros c d Hc; simpl in *.
  - revert c d Hc. induction tail as [|w tail IHt]; intros c d Hc; simpl; [done|].
    rewrite IHt by lia. unfold store.
    replace ((1 <=? c) && (c <=? 512)) with false; [done|].
    symmetry. apply andb_false_iff. right. apply Z.leb_gt. lia.
  - apply IH. lia.
Qed.

(** C3. On a universe of 512 slots, [set_channels(start, values)] is the
    sequence of calls [set_channel(start+i, values[i])] for i = 0, 1, ... in
    order; it returns normally; an empty sequence changes nothing; channel [c]
    of [1,512] reads [clamp(values[c - start], 0, 255)] afterwards when
    [start <= c < start + len(values)] and its old value otherwise; entries
    that address channels past 512 have no effect; and
    [set_channels(5, [10,20,30])] sets channels 5, 6, 7 to 10, 20, 30 and
    changes no other channel. *)
Theorem set_channels_spec (start : Z) (values : list Z) (s : DMXController) :
  length (dmx_data s) = 512%nat ->
  set_channels start values s = apply_each start values s
  /\ set_channels start [] s = (Returned tt, s, [])
  /\ (exists d, set_channels start values s = (Returned tt, with_dmx_data d s, [])
        /\ length d = 512%nat
        /\ forall c, 1 <= c <= 512 ->
             read_channel c (with_dmx_data d s)
             = if decide (start <= c < start + Z.of_nat (length values))
               then (fun v => clamp v 0 255) <$> (values !! Z.to_nat (c - start))
               else read_channel c s)
  /\ (forall tail, 512 < start + Z.of_nat (length values) ->
        set_channels start (values ++ tail) s = set_channels start values s)
  /\ (let s' := final_state (set_channels 5 [10; 20; 30] s) in
      read_channel 5 s' = Some 10 /\ read_channel 6 s' = Some 20
      /\ read_channel 7 s' = Some 30
      /\ forall c, 1 <= c <= 512 -> c <> 5 -> c <> 6 -> c <> 7 ->
           read_channel c s' = read_channel c s).
Proof.
  intros Hlen.
  assert (Hread : forall st vs c, 1 <= c <= 512 ->
    read_channel c (with_dmx_data (store_all st vs (dmx_data s)) s)
    = if decide (st <= c < st + Z.of_nat (length vs))
      then (fun v => clamp v 0 255) <$> (vs !! Z.to_nat (c - st))
      else read_channel c s).
  { intros st vs c Hc. unfold read_channel. simpl.
    rewrite lookup_store_all by done.
    repeat case_decide; try lia; [|done].
    by replace (Z.of_nat (Z.to_nat (c - 1)) + 1 - st) with (c - st) by lia. }
  split; [|split; [|split; [|split]]].
  - unfold set_channels, apply_each. apply (set_channels_from_apply start values []).
  - done.
  - exists (store_all start values (dmx_data s)).
    unfold set_channels. rewrite set_channels_from_run by done.
    replace (start + 0) with start by lia.
    split; [done|]. split; [by rewrite length_store_all|]. apply Hread.
  - intros tail Htail. unfold set_channels.
    rewrite !set_channels_from_run by done.
    rewrite store_all_app; [done | lia].
  - unfold set_channels. rewrite set_channels_from_run by done.
    unfold final_state. cbn [fst snd].
    replace (5 + 0) with 5 by lia.
    split; [|split; [|split]].
    + rewrite Hread by lia. reflexivity.
    + rewrite Hread by lia. reflexivity.
    + rewrite Hread by lia. reflexivity.
    + intros c Hc H5 H6 H7. rewrite Hread by lia.
      case_decide as Hd; [simpl in Hd; lia | done].
Qed.

Lemma set_channels_spec_witness :
  length (dmx_data fresh) = 512%nat
  /\ set_channels 511 [1; 2; 3; 4] fresh = apply_each 511 [1; 2; 3; 4] fresh
  /\ read_channel 6 (final_state (set_channels 5 [10; 20; 30] fresh)) = Some 20.
Proof.
  split; [reflexivity|]. split.
  - exact (proj1 (set_channels_spec 511 [1; 2; 3; 4] fresh eq_refl)).
  - exact (proj1 (proj2 (proj2 (proj2 (proj2 (proj2
             (set_channels_spec 5 [10; 20; 30] fresh eq_refl))))))).
Defined.

(** ** What each method does to the controller *)

Lemma send_dmx_packet_total (ok : bool) (s : DMXController) :
  exists b t, send_dmx_packet ok s = (Returned b, s, t).
Proof.
  unfold send_dmx_packet, bind, get, try_except, serial_write, emit, ret, raise.
  destruct (serial_port s) as [h|]; [|by eauto].
  destruct (build_packet (dmx_data s)) as [packet|]; [|by eauto].
  destruct ok; by eauto.
Qed.

Lemma start_updates_run (s : DMXController) :
  start_updates s
  = if running s then (Returned tt, s, [])
    else (Returned tt, with_update_thread (Some (mkThread true)) (with_running true s),
          [ThreadStart]).
Proof. unfold start_updates, bind, get. by destruct (running s). Qed.

Lemma connect_run (env : Env) (p : string) (baud : Z) (s : DMXController) :
  connect env p baud s
  = if can_open env p then
      (Returned true,
       final_state (start_updates (with_serial_port (Some (mkSerial p baud true)) s)),
       SerialOpen p baud true
         :: trace (start_updates (with_serial_port (Some (mkSerial p baud true)) s)))
    else (Returned false, s, [SerialOpen p baud false]).
Proof.
  unfold connect, try_except, serial_Serial, bind, emit, modify, ret, raise.
  destruct (can_open env p); [|done].
  rewrite start_updates_run. simpl. by destruct (running s).
Qed.

Lemma connect_returns (env : Env) (p : string) (baud : Z) (s : DMXController) :
  exists b, result (connect env p baud s) = Returned b
    /\ dmx_data (final_state (connect env p baud s)) = dmx_data s.
Proof.
  rewrite connect_run, start_updates_run.
  destruct (can_open env p); [|by eexists].
  simpl. destruct (running s); by eexists.
Qed.

(** What the loop of [auto_connect] comes to: the first port whose
    description matches a keyword decides, whatever [connect] answers. *)
Lemma auto_connect_ports_run (env : Env) (baud : Z) (ports : list ListPortInfo)
    (s : DMXController) :
  auto_connect_ports env baud ports s
  = match List.find (fun p => matches_keyword (str_lower env) (description p)) ports with
    | Some p =>
        (Returned true, final_state (connect env (device p) baud s),
         trace (connect env (device p) baud s))
    | None => (Returned false, s, [])
    end.
Proof.
  induction ports as [|p rest IH]; simpl; [done|].
  destruct (matches_keyword (str_lower env) (description p)); [|exact IH].
  unfold try_except, bind.
  destruct (connect_returns env (device p) baud s) as (b & Hb & _).
  destruct (connect env (device p) baud s) as [[r s1] t1].
  run_simpl. subst r. by rewrite app_nil_r.
Qed.

Lemma stop_run (s : DMXController) :
  stop s
  = (Returned tt,
     match serial_port s with
     | Some h => with_serial_port (Some (close h)) (with_running false s)
     | None => with_running false s
     end,
     match update_thread s with Some _ => [ThreadJoin] | None => [] end
     ++ match serial_port s with Some h => [SerialClose (port h)] | None => [] end).
Proof.
  unfold stop, bind, modify, get, emit, ret. simpl.
  destruct (update_thread s), (serial_port s); reflexivity.
Qed.

(** Every call leaves the universe within its invariant. *)
Lemma run_call_universe (env : Env) (c : call) (s : DMXController) :
  universe_inv (dmx_data s) -> universe_inv (dmx_data (final_state (run_call env c s))).
Proof.
  intros [Hlen Hall]. destruct c; simpl.
  - rewrite set_channel_run by done. simpl.
    split; [by rewrite length_store | by apply Forall_store].
  - unfold set_channels. rewrite set_channels_from_run by done. simpl.
    split; [by rewrite length_store_all | by apply Forall_store_all].
  - apply zeros_universe.
  - unfold discard, bind.
    destruct (connect_returns env p baud s) as (b & Hb & Hd).
    destruct (connect env p baud s) as [[r s1] t1].
    run_simpl. subst r. simpl. by rewrite Hd.
  - unfold discard, bind, auto_connect. rewrite auto_connect_ports_run.
    destruct (List.find _ (comports env)) as [p|]; simpl; [|done].
    destruct (connect_returns env (device p) baud s) as (b & _ & Hd).
    by rewrite Hd.
  - unfold discard, bind.
    destruct (send_dmx_packet_total ok s) as (b & t & ->). done.
  - rewrite start_updates_run. by destruct (running s).
  - rewrite stop_run. by destruct (serial_port s).
  - unfold discard, update_dmx, bind, set_channels.
    rewrite set_channels_from_run by done. simpl.
    split; [by rewrite length_store_all | by apply Forall_store_all].
  - done.
Qed.

Lemma init_universe (env : Env) (p : option string) (baud : Z) :
  universe_inv (dmx_data (final_state (init env p baud))).
Proof.
  assert (Hfresh : universe_inv (dmx_data fresh)) by apply zeros_universe.
  assert (Hauto : universe_inv (dmx_data (final_state (auto_connect env baud fresh)))).
  { unfold auto_connect. rewrite auto_connect_ports_run.
    destruct (List.find _ (comports env)) as [q|]; simpl; [|done].
    destruct (connect_returns env (device q) baud fresh) as (b & _ & Hd).
    by rewrite Hd. }
  unfold init. destruct p as [[|c p']|]; [exact Hauto | | exact Hauto].
  destruct (connect_returns env (String c p') baud fresh) as (b & _ & Hd).
  by rewrite Hd.
Qed.

(** C5. The universe has exactly 512 slots, each in [0,255], in the
    controller as constructed, and every call (set_channel, set_channels,
    blackout, connect, auto_connect, send, start, stop, update, status) keeps
    it so; hence in every reachable controller. *)
Theorem universe_invariant (env : Env) :
  universe_inv (dmx_data fresh)
  /\ (forall p baud, universe_inv (dmx_data (final_state (init env p baud))))
  /\ (forall c s, universe_inv (dmx_data s) ->
        universe_inv (dmx_data (final_state (run_call env c s))))
  /\ (forall s, reachable env s -> universe_inv (dmx_data s)).
Proof.
  split; [|split; [|split]].
  - apply zeros_universe.
  - apply init_universe.
  - intros c s. apply run_call_universe.
  - intros s Hs. induction Hs as [p baud | c s Hs IH].
    + apply init_universe.
    + by apply run_call_universe.
Qed.

Lemma universe_invariant_witness :
  universe_inv (dmx_data fresh)
  /\ universe_inv
       (dmx_data (final_state (run_call (mkEnv [] (fun _ => false) lower)
                                        (CallSetChannel 3 999) fresh))).
Proof.
  assert (H : universe_inv (dmx_data fresh)).
  { split; [reflexivity | apply Forall_replicate; lia]. }
  split; [exact H|].
  exact (proj1 (proj2 (proj2 (universe_invariant (mkEnv [] (fun _ => false) lower))))
           (CallSetChannel 3 999) fresh H).
Defined.

(** ** Discovery *)

(** C6, at the failing input. With a first matching port that fails to open,
    [auto_connect] makes that one attempt, reports success ([True]) although
    nothing is connected, and never tries the second matching port, which
    would have opened; the status then says [connected = false]. *)
Theorem auto_connect_true_after_failed_open :
  auto_connect first_adapter_busy 250000 fresh
  = (Returned true, fresh, [SerialOpen "/dev/ttyUSB0" 250000 false])
  /\ result (get_status (final_state (auto_connect first_adapter_busy 250000 fresh)))
     = Returned (mkStatusResponse false None false)
  /\ result (connect first_adapter_busy "/dev/ttyUSB1" 250000 fresh) = Returned true.
Proof. split; [|split]; vm_compute; reflexivity. Qed.

(** ** Transmit loop *)

Lemma elsewhere_run (m : M unit) (s : DMXController) :
  elsewhere m s = (Returned tt, final_state (m s), trace (m s)).
Proof.
  unfold elsewhere, try_except.
  destruct (m s) as [[[[]|e] s1] t1]; simpl; [done|].
  by rewrite app_nil_r.
Qed.

Lemma run_calls_run (env : Env) (cs : list call) : forall s,
  result (run_calls env cs s) = Returned tt
  /\ (universe_inv (dmx_data s) ->
      universe_inv (dmx_data (final_state (run_calls env cs s)))).
Proof.
  induction cs as [|c cs IH]; intros s; simpl; [done|].
  rewrite (bind_returned _ _ _ _ _ _ (elsewhere_run (run_call env c) s)). simpl.
  destruct (IH (final_state (run_call env c s))) as [Hr Hi].
  split; [done|]. intros Hinv. by apply Hi, run_call_universe.
Qed.

Lemma update_loop_step (env : Env) (ok : bool) (others : list call)
    (rest : list (bool * list call)) (s : DMXController) (h : Serial) :
  universe_inv (dmx_data s) -> serial_port s = Some h -> running s = true ->
  _update_loop env ((ok, others) :: rest) s
  = (result (_update_loop env rest (final_state (run_calls env others s))),
     final_state (_update_loop env rest (final_state (run_calls env others s))),
     [SerialWrite (port h) ([0x7E; 0x06; 0x01; 0x02; 0x00] ++ dmx_data s ++ [0xE7]) ok]
     ++ trace (run_calls env others s)
     ++ trace (_update_loop env rest (final_state (run_calls env others s)))).
Proof.
  intros Hinv Hh Hr. cbn [_update_loop].
  unfold bind at 1. unfold get at 1. rewrite Hr.
  rewrite (bind_returned _ _ _ _ _ _ (send_dmx_packet_connected ok s h Hinv Hh)).
  destruct (run_calls_run env others s) as [Hres _].
  destruct (run_calls env others s) as [[r s1] t1] eqn:E.
  simpl in Hres. subst r.
  rewrite (bind_returned _ _ _ _ _ _ E). reflexivity.
Qed.

(** ** Blackout among the other threads *)

Lemma blackout_against_snapshot (old : list Z) (p q : list instr)
    (m : list (bool * instr)) :
  length old = 512%nat ->
  interleaving p q m ->
  forall sh w r, writer_phase old p sh w -> reader_phase old q sh r ->
  (acc (snd (exec m sh w r)) = old \/ acc (snd (exec m sh w r)) = replicate 512 0)
  /\ universe (fst (fst (exec m sh w r))) = replicate 512 0.
Proof.
  intros Hlen Hil.
  induction Hil as [|a p q m Hil IH|b p q m Hil IH]; intros sh w r Hw Hr.
  - cbn [exec fst snd].
    destruct Hw as [[Hp _]|[[Hp _]|[_ Hu]]]; [discriminate | discriminate |].
    destruct Hr as [[Hq _]|(k & obj & Hk & Hq & Hobj & Hcase & Hacc)]; [discriminate|].
    assert (Hk512 : k = 512%nat).
    { apply (f_equal length) in Hq. rewrite length_map, length_seq in Hq.
      cbn [length] in Hq. lia. }
    split.
    + rewrite Hacc, take_ge; [done|].
      destruct Hcase as [->| ->]; rewrite ?length_replicate; lia.
    + unfold universe. by rewrite Hu.
  - cbn [exec]. destruct Hw as [[Hp Hu]|[(Hp & Hu & Hz)|[Hp _]]]; [| |discriminate].
    + unfold blackout_steps in Hp. injection Hp as -> ->. cbn [step]. apply IH.
      * right. left. cbn [objects dmx_ref reg]. split; [done|]. split.
        -- by apply lookup_app_l_Some.
        -- by apply list_lookup_middle.
      * destruct Hr as [Hr|(k & obj & Hk & Hq & Hobj & Hcase & Hacc)]; [by left|].
        right. exists k, obj. cbn [objects].
        repeat split; try done. by apply lookup_app_l_Some.
    + injection Hp as -> ->. cbn [step]. apply IH.
      * right. right. by split.
      * destruct Hr as [Hr|(k & obj & Hk & Hq & Hobj & Hcase & Hacc)]; [by left|].
        right. by exists k, obj.
  - cbn [exec]. destruct Hr as [[Hq Hacc]|(k & obj & Hk & Hq & Hobj & Hcase & Hacc)].
    + unfold snapshot_steps in Hq. injection Hq as -> ->. cbn [step]. apply IH.
      * destruct Hw as [[Hp Hu]|[(Hp & Hu & Hz)|[Hp Hu]]];
          [by left | right; by left | right; by right].
      * right. cbn [reg acc].
        destruct Hw as [[Hp Hu]|[(Hp & Hu & Hz)|[Hp Hu]]].
        -- exists 0%nat, old. repeat split; try done; [lia | by left].
        -- exists 0%nat, old. repeat split; try done; [lia | by left].
        -- exists 0%nat, (replicate 512 0). repeat split; try done; [lia | by right].
    + destruct (512 - k)%nat as [|n] eqn:Hn; [discriminate|].
      cbn [seq map] in Hq. injection Hq as -> ->.
      assert (Hlobj : length obj = 512%nat).
      { destruct Hcase as [->| ->]; [done | apply length_replicate]. }
      destruct (lookup_lt_is_Some_2 obj k) as [v Hv]; [lia|].
      cbn [step]. rewrite Hobj, Hv. apply IH.
      * destruct Hw as [[Hp Hu]|[(Hp & Hu & Hz)|[Hp Hu]]];
          [by left | right; by left | right; by right].
      * right. exists (S k), obj. cbn [reg acc].
        split; [lia|]. split; [by replace (512 - S k)%nat with n by lia|].
        split; [done|]. split; [done|].
        rewrite Hacc. symmetry. by apply take_S_r.
Qed.

Lemma run_steps_app (p q : list instr) : forall sh lo,
  run_steps (p ++ q) sh lo
  = run_steps q (fst (run_steps p sh lo)) (snd (run_steps p sh lo)).
Proof.
  induction p as [|i p IH]; intros sh lo; [done|].
  cbn [app run_steps]. destruct (step i sh lo) as [sh1 lo1]. apply IH.
Qed.

Lemma set_channel_steps_run (c v : Z) (d : list Z) :
  run_steps (set_channel_steps c v) (share d) idle = (share (store c v d), idle).
Proof.
  unfold set_channel_steps, store.
  destruct ((1 <=? c) && (c <=? 512)); [|done].
  cbn. by rewrite max_min_clamp.
Qed.

Lemma set_channels_steps_run (start : Z) (vs : list Z) : forall (i : Z) (d : list Z),
  run_steps (set_channels_steps_from i start vs) (share d) idle
  = (share (store_all (start + i) vs d), idle).
Proof.
  induction vs as [|v vs IH]; intros i d; [done|].
  cbn [set_channels_steps_from store_all].
  rewrite run_steps_app, set_channel_steps_run. cbn [fst snd].
  rewrite IH. by replace (start + (i + 1)) with (start + i + 1) by lia.
Qed.

(** The steps of [set_channels], run with no other thread in between, are
    the method. *)
Lemma set_channels_steps_alone (start : Z) (vs : list Z) (s : DMXController) :
  length (dmx_data s) = 512%nat ->
  alone (set_channels_steps start vs) s = set_channels start vs s.
Proof.
  intros Hlen. unfold set_channels, set_channels_steps.
  rewrite set_channels_from_run by done.
  unfold alone, modify. by rewrite set_channels_steps_run.
Qed.

Lemma run_steps_cons (i : instr) (p : list instr) (sh : Shared) (lo : Local) :
  run_steps (i :: p) sh lo
  = run_steps p (fst (step i sh lo)) (snd (step i sh lo)).
Proof. cbn [run_steps]. by destruct (step i sh lo). Qed.

Lemma read_items_run (obj : list Z) (sh : Shared) (a : nat) (n : nat) : forall k,
  objects sh !! a = Some obj -> length obj = (k + n)%nat ->
  run_steps (map ReadItem (seq k n)) sh (mkLocal a (take k obj))
  = (sh, mkLocal a obj).
Proof.
  induction n as [|n IH]; intros k Hobj Hlen.
  - cbn [seq map run_steps]. rewrite take_ge by lia. done.
  - cbn [seq map run_steps step reg acc]. rewrite Hobj.
    destruct (lookup_lt_is_Some_2 obj k) as [v Hv]; [lia|].
    rewrite Hv, <- (take_S_r _ _ _ Hv). apply IH; [done | lia].
Qed.

(** The steps of the read, run with no other thread in between, copy the
    universe. *)
Lemma snapshot_steps_alone (d : list Z) :
  length d = 512%nat ->
  acc (snd (run_steps snapshot_steps (share d) idle)) = d.
Proof.
  intros Hlen. unfold snapshot_steps. rewrite run_steps_cons.
  change (step LoadAttr (share d) idle) with (share d, mkLocal 0 (take 0 d)).
  cbn [fst snd].
  by rewrite (read_items_run d (share d) 0 512 0 eq_refl Hlen).
Qed.

Lemma interleaving_blocks (p1 p2 q : list instr) :
  interleaving (p1 ++ p2) q
    (map (pair false) p1 ++ map (pair true) q ++ map (pair false) p2).
Proof.
  induction p1 as [|a p1 IH]; [|by constructor].
  cbn [app map]. induction q as [|b q IHq]; [|by constructor].
  cbn [app map]. induction p2 as [|a p2 IH2]; by constructor.
Qed.

(** Unlike the blackout, [set_channels] can be seen half done: a reader that
    runs between its two item stores copies a universe that is neither the
    one before the call nor the one after it. *)
Lemma set_channels_torn :
  exists m,
    interleaving (set_channels_steps 1 [255; 255]) snapshot_steps m
    /\ acc (snd (exec m (share (replicate 512 0)) idle idle))
       = [255] ++ replicate 511 0.
Proof.
  exists (map (pair false) [LoadAttr; StoreItem 0 255]
          ++ map (pair true) snapshot_steps
          ++ map (pair false) [LoadAttr; StoreItem 1 255]).
  split.
  - apply (interleaving_blocks [LoadAttr; StoreItem 0 255] [LoadAttr; StoreItem 1 255]).
  - vm_compute. reflexivity.
Qed.

(** C4. Whatever the controller holds, the blackout handler replaces the
    universe by 512 zeros and touches nothing else: every channel reads 0
    afterwards, the next frame sent carries 512 zeros, and a transmit loop
    around the call sends the frame of the old universe before it and the
    frame of 512 zeros after it. The replacement is all-or-nothing: however
    the steps of the handler (build the new list, rebind the attribute) are
    interleaved with the steps of a reader of the universe (load the
    attribute, copy the 512 items one by one), the reader ends with the whole
    old universe or with 512 zeros, never with a mixture, and the universe
    ends as 512 zeros. *)
Theorem blackout_zeros (s : DMXController) :
  blackout s = (Returned "blackout"%string, with_dmx_data (replicate 512 0) s, [])
  /\ dmx_data (final_state (blackout s)) = replicate 512 0
  /\ (forall c, 1 <= c <= 512 -> read_channel c (final_state (blackout s)) = Some 0)
  /\ (forall h ok, serial_port s = Some h ->
        trace (send_dmx_packet ok (final_state (blackout s)))
        = [SerialWrite (port h)
             ([0x7E; 0x06; 0x01; 0x02; 0x00] ++ replicate 512 0 ++ [0xE7]) ok])
  /\ (forall env h ok1 ok2, serial_port s = Some h -> running s = true ->
        universe_inv (dmx_data s) ->
        trace (_update_loop env [(ok1, [CallBlackout]); (ok2, [])] s)
        = [SerialWrite (port h)
             ([0x7E; 0x06; 0x01; 0x02; 0x00] ++ dmx_data s ++ [0xE7]) ok1;
           SerialWrite (port h)
             ([0x7E; 0x06; 0x01; 0x02; 0x00] ++ replicate 512 0 ++ [0xE7]) ok2])
  /\ (forall m, length (dmx_data s) = 512%nat ->
        interleaving blackout_steps snapshot_steps m ->
        (acc (snd (exec m (share (dmx_data s)) idle idle)) = dmx_data s
         \/ acc (snd (exec m (share (dmx_data s)) idle idle)) = replicate 512 0)
        /\ universe (fst (fst (exec m (share (dmx_data s)) idle idle)))
           = replicate 512 0).
Proof.
  pose proof zeros_universe as Hz.
  split; [apply blackout_run|]. split; [by rewrite blackout_run|].
  split; [|split; [|split]].
  - intros c Hc. rewrite blackout_run. unfold read_channel. cbn [final_state fst snd].
    cbn [dmx_data with_dmx_data]. apply lookup_replicate_2. lia.
  - intros h ok Hh. rewrite blackout_run. cbn [final_state fst snd].
    by rewrite (send_dmx_packet_connected ok (with_dmx_data (replicate 512 0) s) h).
  - intros env h ok1 ok2 Hh Hr Hinv.
    assert (Hcalls : run_calls env [CallBlackout] s
                     = (Returned tt, with_dmx_data (replicate 512 0) s, [])).
    { reflexivity. }
    rewrite (update_loop_step env ok1 [CallBlackout] _ s h Hinv Hh Hr), Hcalls.
    cbn [final_state trace result fst snd].
    rewrite (update_loop_step env ok2 [] [] (with_dmx_data (replicate 512 0) s) h Hz Hh Hr).
    reflexivity.
  - intros m Hlen Hil.
    apply (blackout_against_snapshot (dmx_data s) _ _ m Hlen Hil).
    + left. by split.
    + left. by split.
Qed.

Lemma blackout_zeros_witness :
  1 <= 512 <= 512
  /\ read_channel 512 (final_state (blackout (with_dmx_data [7; 8; 9] fresh))) = Some 0
  /\ length (dmx_data all_sevens) = 512%nat
  /\ interleaving blackout_steps snapshot_steps reader_inside
  /\ (acc (snd (exec reader_inside (share (dmx_data all_sevens)) idle idle))
      = dmx_data all_sevens
      \/ acc (snd (exec reader_inside (share (dmx_data all_sevens)) idle idle))
         = replicate 512 0).
Proof.
  assert (H : 1 <= 512 <= 512) by lia.
  assert (Hlen : length (dmx_data all_sevens) = 512%nat) by reflexivity.
  assert (Hil : interleaving blackout_steps snapshot_steps reader_inside).
  { apply (interleaving_blocks [NewList (replicate 512 0)] [StoreAttr]). }
  split; [exact H|].
  split; [exact (proj1 (proj2 (proj2 (blackout_zeros (with_dmx_data [7; 8; 9] fresh))))
                   512 H)|].
  split; [exact Hlen|]. split; [exact Hil|].
  exact (proj1 (proj2 (proj2 (proj2 (proj2 (proj2 (blackout_zeros all_sevens)))))
                 reader_inside Hlen Hil)).
Defined.

(** C7. A send never raises and never changes the controller, whatever the
    driver answers. When the controller is connected and the write fails,
    the send returns [False] after handing the frame of the current universe
    to the driver; and in the loop, after a failed write and whatever the
    other threads call meanwhile, the next iteration (the controller still
    running and connected) hands the driver the frame of the universe as it
    is then. *)
Theorem write_failure_contained (env : Env) (s : DMXController) :
  (forall ok, exists b t, send_dmx_packet ok s = (Returned b, s, t))
  /\ (forall h, universe_inv (dmx_data s) -> serial_port s = Some h ->
        send_dmx_packet false s
        = (Returned false, s,
           [SerialWrite (port h)
              ([0x7E; 0x06; 0x01; 0x02; 0x00] ++ dmx_data s ++ [0xE7]) false]))
  /\ (forall h others ok2 others2 rest s1 h1,
        universe_inv (dmx_data s) -> serial_port s = Some h -> running s = true ->
        s1 = final_state (run_calls env others s) ->
        running s1 = true -> serial_port s1 = Some h1 ->
        exists more,
          trace (_update_loop env ((false, others) :: (ok2, others2) :: rest) s)
          = [SerialWrite (port h)
               ([0x7E; 0x06; 0x01; 0x02; 0x00] ++ dmx_data s ++ [0xE7]) false]
            ++ trace (run_calls env others s)
            ++ [SerialWrite (port h1)
                  ([0x7E; 0x06; 0x01; 0x02; 0x00] ++ dmx_data s1 ++ [0xE7]) ok2]
            ++ more).
Proof.
  split; [|split].
  - intros ok. apply send_dmx_packet_total.
  - intros h Hinv Hh. by apply send_dmx_packet_connected.
  - intros h others ok2 others2 rest s1 h1 Hinv Hh Hr Hs1 Hr1 Hh1.
    rewrite (update_loop_step env false others _ s h Hinv Hh Hr). rewrite <- Hs1.
    assert (Hinv1 : universe_inv (dmx_data s1)).
    { subst s1. by apply run_calls_run. }
    rewrite (update_loop_step env ok2 others2 rest s1 h1 Hinv1 Hh1 Hr1).
    cbn [trace snd]. by eexists.
Qed.

Lemma write_failure_contained_witness :
  universe_inv (dmx_data connected_running)
  /\ serial_port connected_running = Some (mkSerial "/dev/ttyUSB0" 250000 true)
  /\ send_dmx_packet false connected_running
     = (Returned false, connected_running,
        [SerialWrite "/dev/ttyUSB0"
           ([0x7E; 0x06; 0x01; 0x02; 0x00] ++ dmx_data connected_running ++ [0xE7])
           false]).
Proof.
  assert (H : universe_inv (dmx_data connected_running)).
  { split; [reflexivity | apply Forall_replicate; lia]. }
  split; [exact H|]. split; [reflexivity|].
  exact (proj1 (proj2 (write_failure_contained (mkEnv [] (fun _ => false) lower)
                         connected_running)) _ H eq_refl).
Defined.

(** ** Scheduler start and stop *)

(** C8. When the running flag is already set, [start_updates] returns at
    once: the controller is unchanged and no thread is started; calling it
    twice in a row is the same as calling it once, thread starts included. *)
Theorem start_updates_idempotent (s : DMXController) :
  (running s = true -> start_updates s = (Returned tt, s, []))
  /\ running (final_state (start_updates s)) = true
  /\ bind start_updates (fun _ => start_updates) s = start_updates s.
Proof.
  split; [|split].
  - intros Hr. rewrite start_updates_run. by rewrite Hr.
  - rewrite start_updates_run. by destruct (running s) eqn:Hr.
  - unfold bind. rewrite (start_updates_run s).
    destruct (running s) eqn:Hr.
    + rewrite start_updates_run. by rewrite Hr.
    + rewrite start_updates_run. reflexivity.
Qed.

Lemma start_updates_idempotent_witness :
  running (with_running true fresh) = true
  /\ start_updates (with_running true fresh) = (Returned tt, with_running true fresh, []).
Proof.
  split; [reflexivity|].
  exact (proj1 (start_updates_idempotent (with_running true fresh)) eq_refl).
Defined.

(** C10. With a serial handle in place, [stop] clears the running flag and
    closes the handle, but the attribute still holds the (closed) handle;
    the universe and the thread attribute are as before; so the status
    afterwards reports [connected = true] and [running = false]. *)
Theorem stop_keeps_handle (s : DMXController) (h : Serial) :
  serial_port s = Some h ->
  result (stop s) = Returned tt
  /\ final_state (stop s)
     = mkDMX (dmx_data s) (Some (close h)) false (update_thread s)
  /\ is_open (close h) = false
  /\ In (SerialClose (port h)) (trace (stop s))
  /\ result (get_status (final_state (stop s)))
     = Returned (mkStatusResponse true (Some (port h)) false).
Proof.
  intros Hh. rewrite stop_run, Hh. simpl.
  split; [done|]. split; [done|]. split; [done|]. split; [|done].
  apply in_or_app. right. by left.
Qed.

Lemma stop_keeps_handle_witness :
  serial_port connected_running = Some (mkSerial "/dev/ttyUSB0" 250000 true)
  /\ result (get_status (final_state (stop connected_running)))
     = Returned (mkStatusResponse true (Some "/dev/ttyUSB0"%string) false).
Proof.
  split; [reflexivity|].
  exact (proj2 (proj2 (proj2 (proj2
    (stop_keeps_handle connected_running (mkSerial "/dev/ttyUSB0" 250000 true)
       eq_refl))))).
Defined.

(** ** Update request *)

Lemma read_store_all (s : DMXController) (st : Z) (vs : list Z) (c : Z) :
  length (dmx_data s) = 512%nat -> 1 <= c <= 512 ->
  read_channel c (with_dmx_data (store_all st vs (dmx_data s)) s)
  = if decide (st <= c < st + Z.of_nat (length vs))
    then (fun v => clamp v 0 255) <$> (vs !! Z.to_nat (c - st))
    else read_channel c s.
Proof.
  intros Hlen Hc. unfold read_channel. cbn [dmx_data with_dmx_data].
  rewrite lookup_store_all by done.
  repeat case_decide; try lia; [|done].
  by replace (Z.of_nat (Z.to_nat (c - 1)) + 1 - st) with (c - st) by lia.
Qed.

(** C9. For a request with an optional start channel (1 when absent) and an
    optional list of integer values (empty when absent), on a universe of
    512 slots, the handler applies the values as [set_channels] does: it
    returns normally, only the universe changes, channel [c] of [1,512] reads
    [clamp(values[c - start], 0, 255)] afterwards when
    [start <= c < start + len(values)] and its old value otherwise; and it
    answers status ok, the start channel used and the number of values in the
    request. *)
Theorem update_dmx_response (data : UpdateRequest) (s : DMXController) :
  length (dmx_data s) = 512%nat ->
  result (set_channels (default 1 (startAddress data)) (default [] (channels data)) s)
  = Returned tt
  /\ update_dmx data s
     = (Returned (mkUpdateResponse "ok" (default 1 (startAddress data))
                    (Z.of_nat (length (default [] (channels data))))),
        final_state
          (set_channels (default 1 (startAddress data)) (default [] (channels data)) s),
        [])
  /\ (startAddress data = None ->
      result (update_dmx data s)
      = Returned (mkUpdateResponse "ok" 1 (Z.of_nat (length (default [] (channels data))))))
  /\ (exists d, final_state (update_dmx data s) = with_dmx_data d s
                /\ length d = 512%nat)
  /\ (forall c, 1 <= c <= 512 ->
        read_channel c (final_state (update_dmx data s))
        = if decide (default 1 (startAddress data) <= c
                     < default 1 (startAddress data)
                       + Z.of_nat (length (default [] (channels data))))
          then (fun v => clamp v 0 255)
               <$> (default [] (channels data)
                      !! Z.to_nat (c - default 1 (startAddress data)))
          else read_channel c s).
Proof.
  intros Hlen.
  assert (Hrun : forall st vs,
    set_channels st vs s
    = (Returned tt, with_dmx_data (store_all (st + 0) vs (dmx_data s)) s, [])).
  { intros st vs. unfold set_channels. by rewrite set_channels_from_run. }
  assert (Hupd : update_dmx data s
     = (Returned (mkUpdateResponse "ok" (default 1 (startAddress data))
                    (Z.of_nat (length (default [] (channels data))))),
        final_state
          (set_channels (default 1 (startAddress data)) (default [] (channels data)) s),
        [])).
  { unfold update_dmx. rewrite (bind_returned _ _ _ _ _ _ (Hrun _ _)).
    rewrite Hrun. reflexivity. }
  split; [by rewrite Hrun|]. split; [exact Hupd|].
  split; [intros Hnone; rewrite Hupd, Hnone; reflexivity|].
  rewrite Hupd, Hrun. cbn [final_state fst snd]. rewrite Z.add_0_r. split.
  - eexists. split; [reflexivity|]. by rewrite length_store_all.
  - intros c Hc. by apply read_store_all.
Qed.

Lemma update_dmx_response_witness :
  length (dmx_data fresh) = 512%nat
  /\ result (update_dmx (mkUpdateRequest None (Some [10; 20; 30])) fresh)
     = Returned (mkUpdateResponse "ok" 1 3)
  /\ read_channel 2 (final_state (update_dmx (mkUpdateRequest None (Some [10; 20; 30]))
                                    fresh))
     = Some 20
  /\ read_channel 4 (final_state (update_dmx (mkUpdateRequest None (Some [10; 20; 30]))
                                    fresh))
     = read_channel 4 fresh.
Proof.
  assert (H2 : 1 <= 2 <= 512) by lia.
  assert (H4 : 1 <= 4 <= 512) by lia.
  split; [reflexivity|].
  split; [exact (proj1 (proj2 (proj2 (update_dmx_response
            (mkUpdateRequest None (Some [10; 20; 30])) fresh eq_refl))) eq_refl)|].
  split.
  - exact (proj2 (proj2 (proj2 (proj2 (update_dmx_response
             (mkUpdateRequest None (Some [10; 20; 30])) fresh eq_refl)))) 2 H2).
  - exact (proj2 (proj2 (proj2 (proj2 (update_dmx_response
             (mkUpdateRequest None (Some [10; 20; 30])) fresh eq_refl)))) 4 H4).
Defined.

(** * Further properties of the code *)

(** ** Monad laws used below *)

Lemma bind_ret_l {A B} (a : A) (k : A -> M B) (s : DMXController) :
  bind (ret a) k s = k a s.
Proof. unfold bind, ret. by destruct (k a s) as [[r s2] t2]. Qed.

Lemma bind_assoc {A B C} (m : M A) (k : A -> M B) (k' : B -> M C) (s : DMXController) :
  bind (bind m k) k' s = bind m (fun a => bind (k a) k') s.
Proof.
  unfold bind.
  destruct (m s) as [[[a|e] s1] t1]; [|done].
  destruct (k a s1) as [[[b|e] s2] t2]; [|done].
  destruct (k' b s2) as [[r s3] t3]. by rewrite app_assoc.
Qed.

Lemma with_dmx_data_twice (d1 d2 : list Z) (s : DMXController) :
  with_dmx_data d2 (with_dmx_data d1 s) = with_dmx_data d2 s.
Proof. reflexivity. Qed.

(** ** Universe store: how writes compose *)

Lemma set_channels_from_shift (vs : list Z) : forall (i j start start' : Z) s,
  start + i = start' + j ->
  set_channels_from i start vs s = set_channels_from j start' vs s.
Proof.
  induction vs as [|v vs IH]; intros i j start start' s Heq; simpl; [done|].
  rewrite Heq. apply bind_ext. intros _ s1. apply IH. lia.
Qed.

Lemma set_channels_from_app (start : Z) (vs ws : list Z) : forall (i : Z) s,
  set_channels_from i start (vs ++ ws) s
  = bind (set_channels_from i start vs)
         (fun _ => set_channels_from (i + Z.of_nat (length vs)) start ws) s.
Proof.
  induction vs as [|v vs IH]; intros i s.
  - cbn [app set_channels_from length]. rewrite bind_ret_l.
    change (Z.of_nat 0) with 0. by rewrite Z.add_0_r.
  - cbn [app set_channels_from]. rewrite bind_assoc.
    apply bind_ext. intros _ s1. rewrite IH.
    apply bind_ext. intros _ s2.
    apply set_channels_from_shift. simpl length. lia.
Qed.

(** X1. Writing a concatenated list is writing the first part and then the
    second part from the channel where the first one ended; this holds in
    every controller state, exceptions and effects included. *)
Theorem set_channels_app (start : Z) (vs ws : list Z) (s : DMXController) :
  set_channels start (vs ++ ws) s
  = bind (set_channels start vs)
         (fun _ => set_channels (start + Z.of_nat (length vs)) ws) s.
Proof.
  unfold set_channels. rewrite set_channels_from_app.
  apply bind_ext. intros _ s1.
  apply set_channels_from_shift. lia.
Qed.

Lemma store_store_same (c v w : Z) (d : list Z) :
  store c w (store c v d) = store c w d.
Proof.
  unfold store. case_match; [|done]. apply list_insert_insert_eq.
Qed.

Lemma store_store_commute (c c' v w : Z) (d : list Z) :
  c <> c' -> store c' w (store c v d) = store c v (store c' w d).
Proof.
  intros Hne. unfold store.
  destruct ((1 <=? c) && (c <=? 512)) eqn:Hc;
    destruct ((1 <=? c') && (c' <=? 512)) eqn:Hc'; try done.
  apply andb_prop in Hc as [H1 _]. apply andb_prop in Hc' as [H1' _].
  apply Z.leb_le in H1. apply Z.leb_le in H1'.
  apply list_insert_insert_ne. lia.
Qed.

(** X2. On a universe of 512 slots the last write to a channel wins, writes
    to two different channels give the same universe in either order, and a
    value is stored as its clamped self: writing [v] and writing
    [clamp(v, 0, 255)] are the same call. *)
Theorem set_channel_algebra (s : DMXController) (c c' v w : Z) :
  length (dmx_data s) = 512%nat ->
  final_state (set_channel c w (final_state (set_channel c v s)))
  = final_state (set_channel c w s)
  /\ (c <> c' ->
      final_state (set_channel c' w (final_state (set_channel c v s)))
      = final_state (set_channel c v (final_state (set_channel c' w s))))
  /\ set_channel c (clamp v 0 255) s = set_channel c v s.
Proof.
  intros Hlen.
  assert (Hl : forall a b, length (dmx_data (with_dmx_data (store a b (dmx_data s)) s))
                           = 512%nat).
  { intros a b. simpl. by rewrite length_store. }
  split; [|split].
  - rewrite (set_channel_run c v s Hlen). cbn [final_state fst snd].
    rewrite (set_channel_run c w _ (Hl c v)), (set_channel_run c w s Hlen).
    cbn [final_state fst snd]. rewrite with_dmx_data_twice.
    cbn [dmx_data with_dmx_data]. by rewrite store_store_same.
  - intros Hne.
    rewrite (set_channel_run c v s Hlen), (set_channel_run c' w s Hlen).
    cbn [final_state fst snd].
    rewrite (set_channel_run c' w _ (Hl c v)), (set_channel_run c v _ (Hl c' w)).
    cbn [final_state fst snd]. rewrite !with_dmx_data_twice.
    cbn [dmx_data with_dmx_data]. by rewrite store_store_commute.
  - rewrite !set_channel_run by done. unfold store.
    replace (clamp (clamp v 0 255) 0 255) with (clamp v 0 255); [done|].
    unfold clamp.
    destruct (Z.ltb_spec v 0); [done|].
    destruct (Z.ltb_spec 255 v); [done|].
    destruct (Z.ltb_spec v 0); [lia|].
    destruct (Z.ltb_spec 255 v); [lia | done].
Qed.

Lemma set_channel_algebra_witness :
  length (dmx_data fresh) = 512%nat
  /\ final_state (set_channel 9 40 (final_state (set_channel 9 300 fresh)))
     = final_state (set_channel 9 40 fresh).
Proof.
  split; [reflexivity|].
  exact (proj1 (set_channel_algebra fresh 9 9 300 40 eq_refl)).
Defined.

Lemma set_channels_from_noop (start : Z) (vs : list Z) : forall (i : Z) s,
  512 < start + i \/ start + i + Z.of_nat (length vs) <= 1 ->
  set_channels_from i start vs s = (Returned tt, s, []).
Proof.
  induction vs as [|v vs IH]; intros i s Hout; [done|].
  cbn [set_channels_from].
  assert (Hc : ~ (1 <= start + i <= 512)) by (simpl length in Hout; lia).
  rewrite (bind_returned _ _ _ _ _ _ (set_channel_out_of_range _ v s Hc)).
  rewrite IH by (simpl length in Hout; lia). reflexivity.
Qed.

(** X3. When the whole request addresses channels above 512, or only
    channels below 1, the update handler changes nothing in the controller
    and still answers with the number of values it received: the count in
    the response is the length of the request, not the number of channels
    written. This holds in every controller state. *)
Theorem update_dmx_out_of_range (data : UpdateRequest) (s : DMXController) :
  512 < default 1 (startAddress data)
  \/ default 1 (startAddress data) + Z.of_nat (length (default [] (channels data))) <= 1 ->
  update_dmx data s
  = (Returned (mkUpdateResponse "ok" (default 1 (startAddress data))
                 (Z.of_nat (length (default [] (channels data))))),
     s, []).
Proof.
  intros Hout. unfold update_dmx, set_channels.
  assert (Hout0 :
    512 < default 1 (startAddress data) + 0
    \/ default 1 (startAddress data) + 0
       + Z.of_nat (length (default [] (channels data))) <= 1) by lia.
  rewrite (bind_returned _ _ _ _ _ _ (set_channels_from_noop _ _ 0 s Hout0)).
  reflexivity.
Qed.

Lemma update_dmx_out_of_range_witness :
  512 < 600
  /\ update_dmx (mkUpdateRequest (Some 600) (Some [1; 2; 3])) fresh
     = (Returned (mkUpdateResponse "ok" 600 3), fresh, []).
Proof.
  split; [lia|].
  apply (update_dmx_out_of_range (mkUpdateRequest (Some 600) (Some [1; 2; 3])) fresh).
  left. simpl. lia.
Defined.

(** ** Packet encoder on any list *)

Lemma bytearray_not_bytes (l : list Z) :
  ~ Forall (fun v => 0 <= v <= 255) l -> bytearray l = None.
Proof.
  intros Hl. unfold bytearray.
  destruct (forallb is_byte l) eqn:E; [|done].
  exfalso. apply Hl. apply Forall_forall. intros v Hv.
  rewrite forallb_forall in E. apply list_elem_of_In, E in Hv.
  unfold is_byte in Hv. apply andb_prop in Hv as [H1 H2].
  apply Z.leb_le in H1. apply Z.ltb_lt in H2. lia.
Qed.

Lemma length_field (n : Z) :
  0 <= n < 65536 ->
  0 <= Z.land n 0xFF <= 255
  /\ 0 <= Z.land (Z.shiftr n 8) 0xFF <= 255
  /\ Z.land n 0xFF + 256 * Z.land (Z.shiftr n 8) 0xFF = n.
Proof.
  intros Hn.
  change 0xFF with (Z.ones 8).
  rewrite !Z.land_ones by lia. rewrite Z.shiftr_div_pow2 by lia.
  change (2 ^ 8) with 256. change (Z.ones 8) with 255.
  assert (H1 : 0 <= n mod 256 < 256) by (apply Z.mod_pos_bound; lia).
  assert (H2 : 0 <= n / 256 < 256).
  { split; [apply Z.div_pos; lia | apply Z.div_lt_upper_bound; lia]. }
  rewrite (Z.mod_small (n / 256)) by lia.
  pose proof (Z.div_mod n 256 ltac:(lia)). lia.
Qed.

(** X4. The encoder on a list of any length: when every value is a byte and
    the payload (start code included) fits in 16 bits, the frame is 7E 06,
    two length bytes that read little-endian as the payload length, the start
    code, the values and E7, that is 6 bytes more than the values; when some
    value is not a byte no frame is built; and two lists with the same frame
    are the same list. *)
Theorem build_packet_general (data : list Z) :
  (Forall (fun v => 0 <= v <= 255) data -> Z.of_nat (length data) < 65535 ->
     exists lo hi,
       build_packet data = Some ([0x7E; 0x06; lo; hi; 0x00] ++ data ++ [0xE7])
       /\ 0 <= lo <= 255 /\ 0 <= hi <= 255
       /\ lo + 256 * hi = Z.of_nat (length data) + 1)
  /\ (~ Forall (fun v => 0 <= v <= 255) data -> build_packet data = None)
  /\ (forall data' f,
        build_packet data = Some f -> build_packet data' = Some f -> data = data').
Proof.
  split; [|split].
  - intros Hb Hlen. unfold build_packet.
    rewrite bytearray_bytes by (constructor; [lia | done]).
    destruct (length_field (Z.of_nat (length (0 :: data)))) as (Hlo & Hhi & Hsum).
    { simpl length. lia. }
    eexists _, _. split; [reflexivity|].
    split; [exact Hlo|]. split; [exact Hhi|].
    rewrite Hsum. simpl length. lia.
  - intros Hb. unfold build_packet.
    rewrite bytearray_not_bytes; [done|].
    intros Hall. apply Hb. by apply Forall_cons_1 in Hall as [_ ?].
  - intros data' f H1 H2. unfold build_packet, bytearray in H1, H2.
    destruct (forallb is_byte (0 :: data)); [|done].
    destruct (forallb is_byte (0 :: data')); [|done].
    rewrite <- H2 in H1. simpl in H1. injection H1 as _ _ Hd.
    by apply app_inj_tail in Hd as [? _].
Qed.

Lemma build_packet_general_witness :
  Forall (fun v => 0 <= v <= 255) [1; 2; 3]
  /\ Z.of_nat (length [1; 2; 3]) < 65535
  /\ exists lo hi,
       build_packet [1; 2; 3] = Some ([0x7E; 0x06; lo; hi; 0x00] ++ [1; 2; 3] ++ [0xE7])
       /\ 0 <= lo <= 255 /\ 0 <= hi <= 255
       /\ lo + 256 * hi = Z.of_nat (length [1; 2; 3]) + 1.
Proof.
  assert (H1 : Forall (fun v => 0 <= v <= 255) [1; 2; 3]).
  { repeat constructor; lia. }
  assert (H2 : Z.of_nat (length [1; 2; 3]) < 65535) by (simpl; lia).
  split; [exact H1|]. split; [exact H2|].
  exact (proj1 (build_packet_general [1; 2; 3]) H1 H2).
Defined.

(** ** Keyword matching *)

Lemma prefix_append (kw s : string) :
  String.prefix kw s = true <-> exists post, s = String.append kw post.
Proof.
  revert s. induction kw as [|a kw IH]; intros s.
  - split; [intros _; by exists s | intros _; by destruct s].
  - destruct s as [|b s]; simpl.
    + split; [done | intros [post Hp]; discriminate].
    + destruct (ascii_dec a b) as [->|Hne].
      * rewrite IH. split; intros [post Hp]; exists post; congruence.
      * split; [done | intros [post Hp]; congruence].
Qed.

Lemma contains_append (kw s : string) :
  contains kw s = true
  <-> exists pre post, s = String.append pre (String.append kw post).
Proof.
  induction s as [|b s IH].
  - cbn [contains]. rewrite orb_false_r, prefix_append. split.
    + intros [post Hp]. by exists EmptyString, post.
    + intros (pre & post & Hp). destruct pre; [by exists post | discriminate].
  - cbn [contains]. rewrite orb_true_iff, prefix_append, IH. split.
    + intros [[post Hp] | (pre & post & Hp)].
      * by exists EmptyString, post.
      * exists (String b pre), post. simpl. by rewrite Hp.
    + intros (pre & post & Hp). destruct pre as [|c pre].
      * left. by exists post.
      * right. exists pre, post. simpl in Hp. congruence.
Qed.

(** X6. The keyword "dmxking" never decides: every description it accepts
    is already accepted by "dmx", so the allowlist accepts the same
    descriptions as the four keywords dmx, enttec, ftdi and usb serial,
    however [str.lower] lower-cases. *)
Theorem dmxking_keyword_redundant (lower : string -> string) (descr : string) :
  matches_keyword lower descr
  = existsb (fun keyword => contains keyword (lower descr))
            ["dmx"; "enttec"; "ftdi"; "usb serial"]%string.
Proof.
  unfold matches_keyword, keywords. cbn [existsb].
  destruct (contains "dmx" (lower descr)) eqn:Hdmx; [done|].
  destruct (contains "dmxking" (lower descr)) eqn:Hking; [|done].
  apply contains_append in Hking as (pre & post & Hp).
  assert (Hc : contains "dmx" (lower descr) = true).
  { apply contains_append. exists pre, (String.append "king" post). by rewrite Hp. }
  congruence.
Qed.

(** ** Connection lifecycle *)

Lemma connect_cases (env : Env) (p : string) (baud : Z) (s : DMXController) :
  connect env p baud s
  = if can_open env p then
      (Returned true,
       mkDMX (dmx_data s) (Some (mkSerial p baud true)) true
             (if running s then update_thread s else Some (mkThread true)),
       SerialOpen p baud true :: (if running s then [] else [ThreadStart]))
    else (Returned false, s, [SerialOpen p baud false]).
Proof.
  rewrite connect_run, start_updates_run.
  destruct (can_open env p); [|done].
  simpl. destruct (running s) eqn:Hr; simpl; [|done].
  unfold with_serial_port. by rewrite Hr.
Qed.

Lemma connect_one_open (env : Env) (p : string) (baud : Z) (s : DMXController) :
  List.filter is_serial_open (trace (connect env p baud s))
  = [SerialOpen p baud (can_open env p)].
Proof.
  rewrite connect_cases.
  destruct (can_open env p); [|done]. by destruct (running s).
Qed.

Lemma connect_thread_starts (env : Env) (p : string) (baud : Z) (s : DMXController) :
  List.filter is_thread_start (trace (connect env p baud s))
  = if can_open env p && negb (running s) then [ThreadStart] else [].
Proof.
  rewrite connect_cases.
  destruct (can_open env p); [|done]. by destruct (running s).
Qed.

(** X7. [connect] never raises and answers whether the port opened; it
    makes exactly one open attempt, on the given port at the given baud rate.
    When the open fails the controller is left exactly as it was and no
    thread is started. When it succeeds the controller holds the new open
    handle and is running, the universe is untouched, and a thread is started
    only if the controller was not running yet. *)
Theorem connect_outcome (env : Env) (p : string) (baud : Z) (s : DMXController) :
  result (connect env p baud s) = Returned (can_open env p)
  /\ List.filter is_serial_open (trace (connect env p baud s))
     = [SerialOpen p baud (can_open env p)]
  /\ (can_open env p = false ->
      final_state (connect env p baud s) = s
      /\ List.filter is_thread_start (trace (connect env p baud s)) = [])
  /\ (can_open env p = true ->
      final_state (connect env p baud s)
      = mkDMX (dmx_data s) (Some (mkSerial p baud true)) true
              (if running s then update_thread s else Some (mkThread true))
      /\ List.filter is_thread_start (trace (connect env p baud s))
         = if running s then [] else [ThreadStart]).
Proof.
  split; [|split; [apply connect_one_open|split]].
  - rewrite connect_cases. by destruct (can_open env p).
  - intros Hopen. rewrite connect_thread_starts, connect_cases, Hopen. by split.
  - intros Hopen. rewrite connect_thread_starts, connect_cases, Hopen.
    split; [done|]. by destruct (running s).
Qed.

Lemma connect_outcome_witness :
  can_open first_adapter_busy "/dev/ttyUSB1" = true
  /\ final_state (connect first_adapter_busy "/dev/ttyUSB1" 250000 connected_running)
     = mkDMX (dmx_data connected_running) (Some (mkSerial "/dev/ttyUSB1" 250000 true))
             true (update_thread connected_running)
  /\ List.filter is_thread_start
       (trace (connect first_adapter_busy "/dev/ttyUSB1" 250000 connected_running))
     = []
  /\ can_open first_adapter_busy "/dev/ttyUSB0" = false
  /\ final_state (connect first_adapter_busy "/dev/ttyUSB0" 250000 fresh) = fresh.
Proof.
  split; [reflexivity|].
  split; [exact (proj1 (proj2 (proj2 (proj2
    (connect_outcome first_adapter_busy "/dev/ttyUSB1" 250000 connected_running)))
    eq_refl))|].
  split; [exact (proj2 (proj2 (proj2 (proj2
    (connect_outcome first_adapter_busy "/dev/ttyUSB1" 250000 connected_running)))
    eq_refl))|].
  split; [reflexivity|].
  exact (proj1 (proj1 (proj2 (proj2
    (connect_outcome first_adapter_busy "/dev/ttyUSB0" 250000 fresh))) eq_refl)).
Defined.

(** X8. Discovery never raises, opens at most one port, and opens only a
    port that was enumerated and whose description matches the allowlist,
    at the requested baud rate; when no enumerated description matches it
    answers [False] without any open attempt and leaves the controller as
    it was. *)
Theorem auto_connect_only_matching (env : Env) (baud : Z) (s : DMXController) :
  (exists b, result (auto_connect env baud s) = Returned b)
  /\ (length (List.filter is_serial_open (trace (auto_connect env baud s))) <= 1)%nat
  /\ (forall dev bd ok,
        In (SerialOpen dev bd ok) (trace (auto_connect env baud s)) ->
        bd = baud /\ ok = can_open env dev
        /\ exists p, In p (comports env) /\ device p = dev
                     /\ matches_keyword (str_lower env) (description p) = true)
  /\ ((forall p, In p (comports env) ->
         matches_keyword (str_lower env) (description p) = false) ->
      auto_connect env baud s = (Returned false, s, [])).
Proof.
  unfold auto_connect. rewrite auto_connect_ports_run.
  destruct (List.find _ (comports env)) as [q|] eqn:Hfind.
  - apply find_some in Hfind as [Hin Hmatch].
    split; [by eexists|]. split; [|split].
    + cbn [trace snd]. by rewrite connect_one_open.
    + intros dev bd ok Hev. cbn [trace snd] in Hev.
      assert (Hopen : In (SerialOpen dev bd ok)
                (List.filter is_serial_open (trace (connect env (device q) baud s)))).
      { apply filter_In. by split. }
      rewrite connect_one_open in Hopen.
      destruct Hopen as [Heq|[]]. injection Heq as <- <- <-.
      split; [done|]. split; [done|]. by exists q.
    + intros Hnone. rewrite (Hnone q Hin) in Hmatch. discriminate.
  - split; [by eexists|]. split; [simpl; lia|]. split; [|done].
    intros dev bd ok [].
Qed.

Lemma auto_connect_only_matching_witness :
  In (SerialOpen "/dev/ttyUSB0" 250000 false)
     (trace (auto_connect first_adapter_busy 250000 fresh))
  /\ exists p, In p (comports first_adapter_busy) /\ device p = "/dev/ttyUSB0"%string
               /\ matches_keyword lower (description p) = true.
Proof.
  assert (H : In (SerialOpen "/dev/ttyUSB0" 250000 false)
                (trace (auto_connect first_adapter_busy 250000 fresh))).
  { vm_compute. by left. }
  split; [exact H|].
  exact (proj2 (proj2 (proj1 (proj2 (proj2
    (auto_connect_only_matching first_adapter_busy 250000 fresh))) _ _ _ H))).
Defined.

(** Calls that write channels touch the universe only. *)
Lemma set_channel_data_only (c v : Z) (s : DMXController) :
  exists r d, set_channel c v s = (r, with_dmx_data d s, []).
Proof.
  unfold set_channel. destruct ((1 <=? c) && (c <=? 512)).
  - unfold bind, get. cbn [fst snd].
    destruct (list_setitem (dmx_data s) (c - 1) (Z.max 0 (Z.min 255 v))) as [d|].
    + by exists (Returned tt), d.
    + exists (Raised IndexError), (dmx_data s). by rewrite with_dmx_data_same.
  - exists (Returned tt), (dmx_data s). by rewrite with_dmx_data_same.
Qed.

Lemma set_channels_from_data_only (start : Z) (vs : list Z) : forall (i : Z) s,
  exists r d, set_channels_from i start vs s = (r, with_dmx_data d s, []).
Proof.
  induction vs as [|v vs IH]; intros i s.
  - exists (Returned tt), (dmx_data s). by rewrite with_dmx_data_same.
  - cbn [set_channels_from]. unfold bind.
    destruct (set_channel_data_only (start + i) v s) as (r1 & d1 & ->).
    destruct r1 as [[]|e]; [|by exists (Raised e), d1].
    destruct (IH (i + 1) (with_dmx_data d1 s)) as (r2 & d2 & ->).
    exists r2, d2. by rewrite with_dmx_data_twice.
Qed.

(** The connection attributes after one call, read off each method. *)
Lemma run_call_connection (env : Env) (c : call) (s : DMXController) :
  (serial_port s <> None -> serial_port (final_state (run_call env c s)) <> None)
  /\ (connects c = false -> serial_port s = None ->
      serial_port (final_state (run_call env c s)) = None
      /\ Forall (fun e => is_serial_effect e = false) (trace (run_call env c s)))
  /\ (c <> CallStartUpdates -> lifecycle_inv s ->
      lifecycle_inv (final_state (run_call env c s))).
Proof.
  destruct c; cbn [run_call connects].
  - destruct (set_channel_data_only channel value s) as (r & d & ->). simpl.
    split; [done|]. split; [by intros _ ? | done].
  - unfold set_channels.
    destruct (set_channels_from_data_only start_channel values 0 s) as (r & d & ->).
    simpl. split; [done|]. split; [by intros _ ? | done].
  - simpl. split; [done|]. split; [by intros _ ? | done].
  - unfold discard, bind. rewrite connect_cases.
    destruct (can_open env p); simpl.
    + split; [done|]. split; [done|]. intros _ Hinv _. split; [done|].
      destruct (running s) eqn:Hr; [by apply Hinv | done].
    + split; [done|]. split; [done|]. done.
  - unfold discard, bind, auto_connect. rewrite auto_connect_ports_run.
    destruct (List.find _ (comports env)) as [q|]; simpl.
    + rewrite connect_cases. destruct (can_open env (device q)); simpl.
      * split; [done|]. split; [done|]. intros _ Hinv _. split; [done|].
        destruct (running s) eqn:Hr; [by apply Hinv | done].
      * split; [done|]. split; [done|]. done.
    + split; [done|]. split; [done|]. done.
  - unfold discard, bind.
    destruct (send_dmx_packet_total ok s) as (b & t & Hsend).
    split; [|split].
    + by rewrite Hsend.
    + intros _ Hnone. unfold send_dmx_packet, bind, get. rewrite Hnone. simpl.
      by split.
    + intros _. by rewrite Hsend.
  - rewrite start_updates_run. split; [|split].
    + by destruct (running s).
    + intros _ Hnone. destruct (running s); simpl; [by split|].
      split; [done|]. by repeat constructor.
    + done.
  - rewrite stop_run. split; [|split].
    + by destruct (serial_port s).
    + intros _ Hnone. rewrite Hnone. simpl. split; [done|].
      destruct (update_thread s); by repeat constructor.
    + intros _ _. destruct (serial_port s); by intros ?.
  - unfold discard, update_dmx, bind, set_channels.
    destruct (set_channels_from_data_only (default 1 (startAddress data))
                (default [] (channels data)) 0 s) as (r & d & ->).
    destruct r as [[]|e]; simpl; (split; [done|]); (split; [by intros _ ? | done]).
  - simpl. split; [done|]. split; [by intros _ ? | done].
Qed.

Lemma run_calls_cons (env : Env) (c : call) (cs : list call) (s : DMXController) :
  run_calls env (c :: cs) s
  = (result (run_calls env cs (final_state (run_call env c s))),
     final_state (run_calls env cs (final_state (run_call env c s))),
     trace (run_call env c s) ++ trace (run_calls env cs (final_state (run_call env c s)))).
Proof.
  cbn [run_calls].
  by rewrite (bind_returned _ _ _ _ _ _ (elsewhere_run (run_call env c) s)).
Qed.

Lemma run_calls_app (env : Env) (cs cs' : list call) : forall s,
  run_calls env (cs ++ cs') s
  = (result (run_calls env cs' (final_state (run_calls env cs s))),
     final_state (run_calls env cs' (final_state (run_calls env cs s))),
     trace (run_calls env cs s) ++ trace (run_calls env cs' (final_state (run_calls env cs s)))).
Proof.
  induction cs as [|c cs IH]; intros s.
  - simpl. by destruct (run_calls env cs' s) as [[r s1] t1].
  - cbn [app]. rewrite !run_calls_cons, IH. simpl. by rewrite app_assoc.
Qed.

Lemma run_calls_disconnected (env : Env) (cs : list call) : forall s,
  serial_port s = None -> Forall (fun c => connects c = false) cs ->
  serial_port (final_state (run_calls env cs s)) = None
  /\ Forall (fun e => is_serial_effect e = false) (trace (run_calls env cs s)).
Proof.
  induction cs as [|c cs IH]; intros s Hnone Hcs; [by split|].
  apply Forall_cons_1 in Hcs as [Hc Hcs].
  destruct (proj1 (proj2 (run_call_connection env c s)) Hc Hnone) as [Hn1 Ht1].
  destruct (IH _ Hn1 Hcs) as [Hn2 Ht2].
  rewrite run_calls_cons. simpl. split; [done|]. by apply Forall_app.
Qed.

Lemma update_loop_stopped (env : Env) (schedule : list (bool * list call))
    (s : DMXController) :
  running s = false -> _update_loop env schedule s = (Returned tt, s, []).
Proof.
  intros Hr. destruct schedule as [|[ok others] rest]; [done|].
  cbn [_update_loop]. unfold bind, get. by rewrite Hr.
Qed.

Lemma update_loop_disconnected (env : Env) (schedule : list (bool * list call)) :
  forall s, serial_port s = None ->
  Forall (fun it => Forall (fun c => connects c = false) (snd it)) schedule ->
  Forall (fun e => is_serial_effect e = false) (trace (_update_loop env schedule s)).
Proof.
  induction schedule as [|[ok others] rest IH]; intros s Hnone Hsched; [done|].
  apply Forall_cons_1 in Hsched as [Hothers Hrest]. simpl in Hothers.
  destruct (running s) eqn:Hr; [|by rewrite update_loop_stopped].
  cbn [_update_loop]. unfold bind at 1. unfold get at 1. rewrite Hr.
  assert (Hsend : send_dmx_packet ok s = (Returned false, s, [])).
  { unfold send_dmx_packet, bind, get. by rewrite Hnone. }
  rewrite (bind_returned _ _ _ _ _ _ Hsend).
  destruct (run_calls_run env others s) as [Hres _].
  destruct (run_calls_disconnected env others s Hnone Hothers) as [Hn1 Ht1].
  destruct (run_calls env others s) as [[r s1] t1] eqn:E.
  simpl in Hres, Hn1, Ht1. subst r.
  rewrite (bind_returned _ _ _ _ _ _ E). simpl.
  apply Forall_app. split; [done|]. by apply IH.
Qed.

(** X9. A controller without a serial handle stays silent: as long as
    nobody calls [connect] or [auto_connect], every other call, in any
    number and order, and the transmit loop itself (should it have been
    started) open, write and close nothing, and the handle stays absent. *)
Theorem disconnected_never_transmits (env : Env) (s : DMXController) :
  serial_port s = None ->
  (forall cs, Forall (fun c => connects c = false) cs ->
     serial_port (final_state (run_calls env cs s)) = None
     /\ Forall (fun e => is_serial_effect e = false) (trace (run_calls env cs s)))
  /\ (forall schedule,
        Forall (fun it => Forall (fun c => connects c = false) (snd it)) schedule ->
        Forall (fun e => is_serial_effect e = false)
               (trace (_update_loop env schedule s))).
Proof.
  intros Hnone. split.
  - intros cs. by apply run_calls_disconnected.
  - intros schedule. by apply update_loop_disconnected.
Qed.

Lemma disconnected_never_transmits_witness :
  serial_port fresh = None
  /\ Forall (fun e => is_serial_effect e = false)
       (trace (run_calls (mkEnv [] (fun _ => false) lower)
                 [CallStartUpdates; CallSend true; CallSetChannel 1 255; CallStop]
                 fresh)).
Proof.
  split; [reflexivity|].
  apply (proj1 (disconnected_never_transmits (mkEnv [] (fun _ => false) lower) fresh eq_refl)).
  repeat constructor.
Defined.

Lemma run_calls_connected (env : Env) (cs : list call) : forall s,
  serial_port s <> None -> serial_port (final_state (run_calls env cs s)) <> None.
Proof.
  induction cs as [|c cs IH]; intros s Hs; [done|].
  rewrite run_calls_cons. simpl.
  apply IH. exact (proj1 (run_call_connection env c s) Hs).
Qed.

(** X10. No method ever resets the serial handle: once the controller holds
    one, it holds one after every sequence of calls (failed reconnects and
    [stop] included), so the status keeps reporting [connected = true]. *)
Theorem handle_never_cleared (env : Env) (cs : list call) (s : DMXController) :
  serial_port s <> None ->
  serial_port (final_state (run_calls env cs s)) <> None
  /\ exists st, result (get_status (final_state (run_calls env cs s))) = Returned st
                /\ st_connected st = true.
Proof.
  intros Hs. pose proof (run_calls_connected env cs s Hs) as Hs'.
  split; [done|].
  unfold get_status, bind, get. cbn [fst snd ret result].
  eexists. split; [reflexivity|]. simpl.
  by destruct (serial_port (final_state (run_calls env cs s))).
Qed.

Lemma handle_never_cleared_witness :
  serial_port connected_running <> None
  /\ serial_port (final_state (run_calls first_adapter_busy
                                 [CallStop; CallConnect "/dev/ttyUSB0" 250000]
                                 connected_running)) <> None.
Proof.
  assert (H : serial_port connected_running <> None) by (simpl; discriminate).
  split; [exact H|].
  exact (proj1 (handle_never_cleared first_adapter_busy
                  [CallStop; CallConnect "/dev/ttyUSB0" 250000] connected_running H)).
Defined.

Lemma discard_final_state {A} (m : M A) (s : DMXController) :
  final_state (discard m s) = final_state (m s).
Proof. unfold discard, bind. by destruct (m s) as [[[a|e] s1] t1]. Qed.

Lemma init_as_call (env : Env) (p : option string) (baud : Z) :
  exists c, c <> CallStartUpdates
            /\ final_state (init env p baud) = final_state (run_call env c fresh).
Proof.
  unfold init. destruct p as [[|a p']|].
  - exists (CallAutoConnect baud). split; [done|].
    cbn [run_call]. by rewrite discard_final_state.
  - exists (CallConnect (String a p') baud). split; [done|].
    cbn [run_call]. by rewrite discard_final_state.
  - exists (CallAutoConnect baud). split; [done|].
    cbn [run_call]. by rewrite discard_final_state.
Qed.

(** X11. "Running implies connected": in the controller as constructed,
    and after every call other than a direct [start_updates], a set running
    flag comes with a serial handle and a thread. A direct [start_updates]
    on a controller without a handle breaks it: the flag is set and a thread
    is started although nothing is connected. *)
Theorem lifecycle_invariant (env : Env) :
  (forall p baud, lifecycle_inv (final_state (init env p baud)))
  /\ (forall c s, c <> CallStartUpdates -> lifecycle_inv s ->
        lifecycle_inv (final_state (run_call env c s)))
  /\ (forall s, serial_port s = None -> running s = false ->
        running (final_state (start_updates s)) = true
        /\ serial_port (final_state (start_updates s)) = None
        /\ trace (start_updates s) = [ThreadStart]).
Proof.
  split; [|split].
  - intros p baud. destruct (init_as_call env p baud) as (c & Hc & ->).
    apply (proj2 (proj2 (run_call_connection env c fresh)) Hc).
    intros Hr. discriminate.
  - intros c s. exact (proj2 (proj2 (run_call_connection env c s))).
  - intros s Hnone Hr. rewrite start_updates_run, Hr. by simpl.
Qed.

Lemma lifecycle_invariant_witness :
  lifecycle_inv (final_state (connect first_adapter_busy "/dev/ttyUSB1" 250000 fresh))
  /\ lifecycle_inv
       (final_state (run_call first_adapter_busy CallStop
          (final_state (connect first_adapter_busy "/dev/ttyUSB1" 250000 fresh)))).
Proof.
  assert (H : lifecycle_inv
                (final_state (connect first_adapter_busy "/dev/ttyUSB1" 250000 fresh))).
  { intros _. split; vm_compute; discriminate. }
  split; [exact H|].
  apply (proj1 (proj2 (lifecycle_invariant first_adapter_busy)) CallStop);
    [discriminate | exact H].
Defined.

(** X12. The controller as constructed, whatever the ports and the port
    argument: the universe is 512 zeros, the controller is running exactly
    when it holds a serial handle, and at most one port was opened. *)
Theorem constructed_controller (env : Env) (p : option string) (baud : Z) :
  dmx_data (final_state (init env p baud)) = replicate 512 0
  /\ (serial_port (final_state (init env p baud)) <> None
      <-> running (final_state (init env p baud)) = true)
  /\ (length (List.filter is_serial_open (trace (init env p baud))) <= 1)%nat.
Proof.
  assert (Hc : forall q,
    dmx_data (final_state (connect env q baud fresh)) = replicate 512 0
    /\ (serial_port (final_state (connect env q baud fresh)) <> None
        <-> running (final_state (connect env q baud fresh)) = true)
    /\ (length (List.filter is_serial_open (trace (connect env q baud fresh))) <= 1)%nat).
  { intros q. rewrite connect_one_open. rewrite connect_cases.
    destruct (can_open env q); simpl; (split; [done|]); (split; [|lia]); split; done. }
  assert (Ha :
    dmx_data (final_state (auto_connect env baud fresh)) = replicate 512 0
    /\ (serial_port (final_state (auto_connect env baud fresh)) <> None
        <-> running (final_state (auto_connect env baud fresh)) = true)
    /\ (length (List.filter is_serial_open (trace (auto_connect env baud fresh))) <= 1)%nat).
  { unfold auto_connect. rewrite auto_connect_ports_run.
    destruct (List.find _ (comports env)) as [q|]; cbn [final_state trace fst snd].
    - apply Hc.
    - split; [done|]. split; [|simpl; lia]. split; done. }
  unfold init. destruct p as [[|a p']|]; [exact Ha | apply Hc | exact Ha].
Qed.

(** ** The loop, stop and restart *)

Lemma run_calls_nil (env : Env) (s : DMXController) :
  run_calls env [] s = (Returned tt, s, []).
Proof. reflexivity. Qed.

(** X13. While nobody else calls the controller, a running, connected loop
    hands the driver the same frame of the current universe once per
    iteration, whether the earlier writes succeeded or failed, and leaves the
    controller unchanged. *)
Theorem loop_retransmits (env : Env) (oks : list bool) (s : DMXController) (h : Serial) :
  universe_inv (dmx_data s) -> serial_port s = Some h -> running s = true ->
  _update_loop env (map (fun ok => (ok, [])) oks) s
  = (Returned tt, s,
     map (fun ok => SerialWrite (port h)
                      ([0x7E; 0x06; 0x01; 0x02; 0x00] ++ dmx_data s ++ [0xE7]) ok)
         oks).
Proof.
  intros Hinv Hh Hr. induction oks as [|ok oks IH]; [done|].
  cbn [map]. rewrite (update_loop_step env ok [] _ s h Hinv Hh Hr).
  rewrite run_calls_nil. cbn [final_state trace result fst snd].
  rewrite IH. reflexivity.
Qed.

Lemma loop_retransmits_witness :
  universe_inv (dmx_data connected_running)
  /\ serial_port connected_running = Some (mkSerial "/dev/ttyUSB0" 250000 true)
  /\ running connected_running = true
  /\ final_state (_update_loop (mkEnv [] (fun _ => false) lower)
                    (map (fun ok => (ok, [])) [true; false; true]) connected_running)
     = connected_running.
Proof.
  assert (H : universe_inv (dmx_data connected_running)).
  { split; [reflexivity | apply Forall_replicate; lia]. }
  split; [exact H|]. split; [reflexivity|]. split; [reflexivity|].
  by rewrite (loop_retransmits (mkEnv [] (fun _ => false) lower) [true; false; true]
                connected_running _ H eq_refl eq_refl).
Defined.

Lemma stop_clears_running (s : DMXController) :
  running (final_state (stop s)) = false.
Proof. rewrite stop_run. by destruct (serial_port s). Qed.

Lemma run_call_keeps_stopped (env : Env) (c : call) (s : DMXController) :
  restarts c = false -> running s = false ->
  running (final_state (run_call env c s)) = false.
Proof.
  intros Hc Hr. destruct c; cbn [run_call restarts] in *; try discriminate.
  - by destruct (set_channel_data_only channel value s) as (r & d & ->).
  - unfold set_channels.
    by destruct (set_channels_from_data_only start_channel values 0 s) as (r & d & ->).
  - by rewrite discard_final_state, blackout_run.
  - rewrite discard_final_state.
    by destruct (send_dmx_packet_total ok s) as (b & t & ->).
  - apply stop_clears_running.
  - rewrite discard_final_state. unfold update_dmx, bind, set_channels.
    destruct (set_channels_from_data_only (default 1 (startAddress data))
                (default [] (channels data)) 0 s) as (r & d & ->).
    by destruct r as [[]|e].
  - done.
Qed.

Lemma run_calls_keep_stopped (env : Env) (cs : list call) : forall s,
  Forall (fun c => restarts c = false) cs -> running s = false ->
  running (final_state (run_calls env cs s)) = false.
Proof.
  induction cs as [|c cs IH]; intros s Hcs Hr; [done|].
  apply Forall_cons_1 in Hcs as [Hc Hcs].
  rewrite run_calls_cons. cbn [final_state fst snd].
  apply IH; [done|]. by apply run_call_keeps_stopped.
Qed.

(** X14. [stop] ends the loop. When another thread calls [stop] while the
    loop sleeps and no later call in that sleep is [connect], [auto_connect]
    or [start_updates], the running flag is down at the loop's next check;
    and whenever the flag is down at that check, however it got there, the
    loop exits without writing another frame, whatever the schedule still
    holds. A loop entered with the flag down does nothing at all. *)
Theorem loop_ends_after_stop (env : Env) (ok : bool) (rest : list (bool * list call))
    (s : DMXController) (h : Serial) :
  universe_inv (dmx_data s) -> serial_port s = Some h -> running s = true ->
  (forall before after, Forall (fun c => restarts c = false) after ->
     running (final_state (run_calls env (before ++ CallStop :: after) s)) = false)
  /\ (forall others, running (final_state (run_calls env others s)) = false ->
        _update_loop env ((ok, others) :: rest) s
        = (Returned tt, final_state (run_calls env others s),
           [SerialWrite (port h)
              ([0x7E; 0x06; 0x01; 0x02; 0x00] ++ dmx_data s ++ [0xE7]) ok]
           ++ trace (run_calls env others s)))
  /\ (forall s0 schedule, running s0 = false ->
        _update_loop env schedule s0 = (Returned tt, s0, [])).
Proof.
  intros Hinv Hh Hr. split; [|split].
  - intros before after Hafter.
    rewrite run_calls_app. cbn [final_state fst snd].
    rewrite run_calls_cons. cbn [final_state fst snd].
    apply run_calls_keep_stopped; [done|].
    cbn [run_call]. apply stop_clears_running.
  - intros others Hdown.
    rewrite (update_loop_step env ok _ rest s h Hinv Hh Hr).
    rewrite (update_loop_stopped env rest _ Hdown).
    cbn [final_state trace result fst snd]. by rewrite app_nil_r.
  - intros s0 schedule. apply update_loop_stopped.
Qed.

Lemma loop_ends_after_stop_witness :
  universe_inv (dmx_data connected_running)
  /\ serial_port connected_running = Some (mkSerial "/dev/ttyUSB0" 250000 true)
  /\ running connected_running = true
  /\ Forall (fun c => restarts c = false) [CallSetChannel 1 255; CallSend true]
  /\ running (final_state (run_calls (mkEnv [] (fun _ => false) lower)
                             ([CallBlackout] ++ CallStop
                                :: [CallSetChannel 1 255; CallSend true])
                             connected_running)) = false.
Proof.
  assert (H : universe_inv (dmx_data connected_running)).
  { split; [reflexivity | apply Forall_replicate; lia]. }
  assert (Ha : Forall (fun c => restarts c = false) [CallSetChannel 1 255; CallSend true]).
  { repeat constructor. }
  split; [exact H|]. split; [reflexivity|]. split; [reflexivity|].
  split; [exact Ha|].
  exact (proj1 (loop_ends_after_stop (mkEnv [] (fun _ => false) lower) true []
                  connected_running _ H eq_refl eq_refl) [CallBlackout] _ Ha).
Defined.

Lemma close_twice (h : Serial) : close (close h) = close h.
Proof. reflexivity. Qed.

(** X15. [stop] never raises, always leaves the running flag down and the
    universe as it was, and calling it again changes nothing more in the
    controller (the handle, if any, is closed once more); on a controller that
    never had a handle or a thread it only clears the flag. *)
Theorem stop_twice (s : DMXController) :
  result (stop s) = Returned tt
  /\ running (final_state (stop s)) = false
  /\ dmx_data (final_state (stop s)) = dmx_data s
  /\ final_state (stop (final_state (stop s))) = final_state (stop s)
  /\ (forall h, serial_port s = Some h ->
        In (SerialClose (port h)) (trace (stop (final_state (stop s)))))
  /\ (serial_port s = None -> update_thread s = None ->
      stop s = (Returned tt, with_running false s, [])).
Proof.
  split; [by rewrite stop_run|]. split; [apply stop_clears_running|].
  split; [rewrite stop_run; by destruct (serial_port s)|].
  split; [|split].
  - rewrite (stop_run s). cbn [final_state fst snd].
    destruct (serial_port s) as [h|] eqn:Hh; rewrite stop_run; simpl; [done|].
    by rewrite Hh.
  - intros h Hh. rewrite (stop_run s), Hh. cbn [final_state fst snd].
    rewrite stop_run. simpl. apply in_or_app. right. by left.
  - intros Hnone Hthread. by rewrite stop_run, Hnone, Hthread.
Qed.

Lemma stop_twice_witness :
  serial_port fresh = None /\ update_thread fresh = None
  /\ stop fresh = (Returned tt, with_running false fresh, []).
Proof.
  split; [reflexivity|]. split; [reflexivity|].
  exact (proj2 (proj2 (proj2 (proj2 (proj2 (stop_twice fresh))))) eq_refl eq_refl).
Defined.

(** X16. Stopping and connecting again restarts the controller: when the
    port opens, the controller holds the new open handle, is running with a
    newly started thread, and its universe is the one it had before the
    stop. *)
Theorem stop_then_connect (env : Env) (p : string) (baud : Z) (s : DMXController) :
  can_open env p = true ->
  result (bind stop (fun _ => connect env p baud) s) = Returned true
  /\ final_state (bind stop (fun _ => connect env p baud) s)
     = mkDMX (dmx_data s) (Some (mkSerial p baud true)) true (Some (mkThread true))
  /\ trace (bind stop (fun _ => connect env p baud) s)
     = trace (stop s) ++ [SerialOpen p baud true; ThreadStart].
Proof.
  intros Hopen.
  rewrite (bind_returned _ _ _ _ _ _ (stop_run s)).
  rewrite connect_cases, Hopen. cbn [result final_state trace fst snd].
  rewrite stop_run. cbn [trace snd].
  destruct (serial_port s); simpl; by split.
Qed.

Lemma stop_then_connect_witness :
  can_open first_adapter_busy "/dev/ttyUSB1" = true
  /\ final_state (bind stop (fun _ => connect first_adapter_busy "/dev/ttyUSB1" 250000)
                       connected_running)
     = mkDMX (dmx_data connected_running) (Some (mkSerial "/dev/ttyUSB1" 250000 true))
             true (Some (mkThread true)).
Proof.
  split; [reflexivity|].
  exact (proj1 (proj2 (stop_then_connect first_adapter_busy "/dev/ttyUSB1" 250000
                         connected_running eq_refl))).
Defined.
